(** * PassThru (J2534) session layer: a shallow embedding

    Two translation units are modelled.

    - [j2534_jni.cpp] (class [J2534JniWrapper]): the device registry
      [g_devices]/[g_device_count], the textual last error, and the
      validating entry points [connect], [writeMessages],
      [startMessageFilter], [ioctl], ...   -> [Module Jni].
    - [j2534_native.cpp] (class [J2534Interface]): the driver loader
      [load_j2534_library]/[unload_j2534_library], the calls forwarded through
      the function table, and the message marshaller
      [convert_java_message_to_native]/[convert_native_message_to_java]
      -> [Module Native].

    Integers are [Z] with the wrap-around of the C type written out, byte
    buffers are [list byte], a nullable reference is an [option]. *)

From Stdlib Require Import ZArith Lia Strings.Byte.
From stdpp Require Import base list strings gmap pretty.

Local Open Scope Z_scope.

(** ** Machine integers *)

(** A [bits]-wide two's-complement value: the result of converting [z] to a
    signed integer type of that width. *)
Definition wrap_signed (bits z : Z) : Z :=
  (z + 2 ^ (bits - 1)) mod 2 ^ bits - 2 ^ (bits - 1).

(** [jlong] is a signed 64-bit integer, [jint] and [jsize] signed 32-bit. *)
Definition to_jlong : Z -> Z := wrap_signed 64.
Definition to_jint : Z -> Z := wrap_signed 32.

Definition is_jlong (z : Z) : Prop := - 2 ^ 63 <= z < 2 ^ 63.
Definition is_jint (z : Z) : Prop := - 2 ^ 31 <= z < 2 ^ 31.

(** [j2534_native.h] includes [<windows.h>] and declares every field of
    [PASSTHRU_MSG] as [unsigned long]; under that ABI, and in the PassThru
    standard itself, the type is 32 bits wide. *)
Definition ULONG_BITS : Z := 32.
Definition to_ulong (z : Z) : Z := z mod 2 ^ ULONG_BITS.
Definition is_ulong (z : Z) : Prop := 0 <= z < 2 ^ ULONG_BITS.

(** ** [j2534_jni.h]: status codes, protocol ids, filter types *)

Definition STATUS_NOERROR : Z := 0x00.
Definition ERR_NOT_SUPPORTED : Z := 0x01.
Definition ERR_INVALID_CHANNEL_ID : Z := 0x02.
Definition ERR_INVALID_PROTOCOL_ID : Z := 0x03.
Definition ERR_NULL_PARAMETER : Z := 0x04.
Definition ERR_INVALID_IOCTL_VALUE : Z := 0x05.
Definition ERR_INVALID_FLAGS : Z := 0x06.
Definition ERR_FAILED : Z := 0x07.
Definition ERR_DEVICE_NOT_CONNECTED : Z := 0x08.
Definition ERR_TIMEOUT : Z := 0x09.
Definition ERR_INVALID_DEVICE_ID : Z := 0x0A.
Definition ERR_INVALID_FUNCTION : Z := 0x0B.
Definition ERR_INVALID_MSG : Z := 0x0C.
Definition ERR_INVALID_TIME_INTERVAL : Z := 0x0D.
Definition ERR_INVALID_MSG_ID : Z := 0x0E.
Definition ERR_DEVICE_IN_USE : Z := 0x0F.
Definition ERR_INVALID_IOCTL_ID : Z := 0x10.
Definition ERR_BUFFER_EMPTY : Z := 0x11.
Definition ERR_BUFFER_FULL : Z := 0x12.
Definition ERR_BUFFER_OVERFLOW : Z := 0x13.
Definition ERR_PIN_INVALID : Z := 0x14.
Definition ERR_CHANNEL_IN_USE : Z := 0x15.
Definition ERR_MSG_PROTOCOL_ID : Z := 0x16.
Definition ERR_INVALID_FILTER_ID : Z := 0x17.
Definition ERR_NO_FLOW_CONTROL : Z := 0x18.
Definition ERR_NOT_UNIQUE : Z := 0x19.
Definition ERR_INVALID_BAUDRATE : Z := 0x1A.
Definition ERR_INVALID_DEVICE_STATE : Z := 0x1B.
Definition ERR_INVALID_TRANSMIT_PATTERN : Z := 0x1C.
Definition ERR_INSUFFICIENT_MEMORY : Z := 0x1D.

Definition J1850VPW : Z := 1.
Definition J1850PWM : Z := 2.
Definition ISO9141 : Z := 3.
Definition ISO14230 : Z := 4.
Definition CAN : Z := 5.
Definition ISO15765 : Z := 6.
Definition SCI_A_ENGINE : Z := 7.
Definition SCI_A_TRANS : Z := 8.
Definition SCI_B_ENGINE : Z := 9.
Definition SCI_B_TRANS : Z := 10.

Definition PASS_FILTER : Z := 1.
Definition BLOCK_FILTER : Z := 2.
Definition FLOW_CONTROL_FILTER : Z := 3.

(** ** The driver boundary

    One constructor per call made through the function table of a bound
    driver ([g_j2534_lib->PassThruXxx(...)]).  The ordered list of these
    calls is the only trace of what reached the driver. *)
Inductive DriverCall : Type :=
  | DrvOpen (pName : option string)
  | DrvClose (DeviceID : Z)
  | DrvConnect (DeviceID ProtocolID Flags Baudrate : Z)
  | DrvDisconnect (ChannelID : Z).

(** ** State passing

    Both units keep their state in globals; a function that reads or writes
    them takes the state and returns its result with the new state. *)
Definition StateM (S A : Type) : Type := S -> A * S.
Definition ret {S A} (a : A) : StateM S A := fun s => (a, s).
Definition bind {S A B} (m : StateM S A) (k : A -> StateM S B) : StateM S B :=
  fun s => let '(a, s1) := m s in k a s1.
Notation "'let*' x ':=' m 'in' k" := (bind m (fun x => k))
  (at level 10, x name, m at level 100, k at level 200).
Notation "m '>>' k" := (bind m (fun _ => k))
  (at level 100, k at level 200, right associativity).

(** A Java reference: [None] is [NULL]. The referent of a [jobject] whose
    content the code never inspects is an opaque identifier. *)
Definition jobject : Type := option positive.

(** C string helpers, on strings that hold no NUL. [snprintf (buf, size, s)]
    and [strncpy (buf, s, size - 1); buf[size - 1] = 0] both leave the first
    [size - 1] characters of [s]. *)
Definition snprintf (size : nat) (s : string) : string :=
  String.substring 0 (size - 1) s.
Definition strncpy_terminated (size : nat) (s : string) : string :=
  String.substring 0 (size - 1) s.

(** * [j2534_jni.cpp] *)
Module Jni.

(** [J2534DeviceStruct]; the Java [J2534Device] built from it by
    [scanForDevices] carries the same six values. *)
Record J2534DeviceStruct : Type := mkDevice {
  handle : Z;
  name : string;
  vendor : string;
  firmware_version : string;
  dll_version : string;
  api_version : string
}.

(** [J2534MessageStruct], read off a Java [J2534Message] by [getJavaMessage]. *)
Record J2534MessageStruct : Type := mkMessage {
  protocolID : Z;
  rxStatus : Z;
  txFlags : Z;
  timestamp : Z;
  data : option (list byte);
  extraDataIndex : Z
}.

(** The file's globals ([g_mutex] apart: every function here runs to
    completion), and the calls that reached a driver. *)
Record World : Type := mkWorld {
  g_devices : list J2534DeviceStruct;
  g_device_count : Z;
  g_last_error : string;
  driver_calls : list DriverCall
}.

Definition zero_device : J2534DeviceStruct := mkDevice 0 "" "" "" "" "".

(** The values the globals have when the library is loaded. *)
Definition initial : World := mkWorld (replicate 32 zero_device) 0 "" [].

(** The slots in use, and their handles. *)
Definition active_devices (w : World) : list J2534DeviceStruct :=
  take (Z.to_nat (g_device_count w)) (g_devices w).
Definition active_device_handles (w : World) : list Z :=
  handle <$> active_devices w.

(** The functions of this file thread [World]. *)
Definition M : Type -> Type := StateM World.

Definition setLastError (error : string) : M unit := fun w =>
  (tt, mkWorld (g_devices w) (g_device_count w)
               (strncpy_terminated 512 error) (driver_calls w)).

Definition initialize : M bool := fun w =>
  (true, mkWorld (replicate 32 zero_device) 0 "" (driver_calls w)).

Definition cleanup : M unit := fun w =>
  (tt, mkWorld (replicate 32 zero_device) 0 "" (driver_calls w)).

(** One turn of the loop of [scanForDevices], at loop index [i], with
    [deviceList] the Java list built so far. *)
Definition scan_iteration (i : Z) (deviceList : list J2534DeviceStruct)
  : M (list J2534DeviceStruct) := fun w =>
  if g_device_count w <? 32 then
    let device :=
      mkDevice (1000 + i)
               (snprintf 256 ("J2534_Device_" +:+ pretty i))
               (snprintf 128 ("Vendor_" +:+ pretty i))
               (snprintf 64 ("1.0." +:+ pretty i))
               (snprintf 64 "04.04")
               (snprintf 64 "04.04") in
    (deviceList ++ [device],
     mkWorld (<[Z.to_nat (g_device_count w) := device]> (g_devices w))
             (g_device_count w + 1) (g_last_error w) (driver_calls w))
  else (deviceList, w).

(** [for (int i = lo; i < lo + n; i++) acc = body i acc]. *)
Fixpoint for_loop {A} (n : nat) (i : Z) (body : Z -> A -> M A) (acc : A) : M A :=
  match n with
  | O => ret acc
  | S n' => let* acc' := body i acc in for_loop n' (i + 1) body acc'
  end.

Definition scanForDevices : M (list J2534DeviceStruct) :=
  for_loop 2 0 scan_iteration [].

(** [deviceHandle + 10000] is a [jlong] sum; it is taken to wrap. *)
Definition connect (deviceHandle protocol flags baudrate : Z) : M Z :=
  if (protocol <? 1) || (protocol >? 10) then
    setLastError "Invalid protocol ID" >> ret ERR_INVALID_PROTOCOL_ID
  else
    let channelHandle := to_jlong (deviceHandle + 10000) in
    ret channelHandle.

Definition disconnect (handle : Z) : M Z := ret STATUS_NOERROR.

(** A Java [J2534Message[]]: the reference may be [NULL], and so may each
    element. [GetObjectArrayElement] past the end leaves an exception pending
    and yields [NULL]. *)
Definition jmessageArray : Type := option (list (option J2534MessageStruct)).

Definition GetObjectArrayElement
  (messages : list (option J2534MessageStruct)) (i : Z)
  : option J2534MessageStruct :=
  if i <? 0 then None else mjoin (messages !! Z.to_nat i).

(** [getJavaMessage] copies the six fields of the Java object. *)
Definition getJavaMessage (javaMsg : J2534MessageStruct) : J2534MessageStruct :=
  mkMessage (protocolID javaMsg) (rxStatus javaMsg) (txFlags javaMsg)
            (timestamp javaMsg) (data javaMsg) (extraDataIndex javaMsg).

(** [setJavaMessage] overwrites five fields, and [data] when the C message
    has one. *)
Definition setJavaMessage (javaMsg cMsg : J2534MessageStruct) : J2534MessageStruct :=
  mkMessage (protocolID cMsg) (rxStatus cMsg) (txFlags cMsg) (timestamp cMsg)
            (match data cMsg with Some d => Some d | None => data javaMsg end)
            (extraDataIndex cMsg).

Definition sampleData : list byte := [x01; x22; xf1; x90; x41; x00; x00; x00].

(** The Java side of [readMessages]. The array holds references, and two
    elements may hold the same one; every reference denotes a [J2534Message]
    object. What the call leaves behind is the contents of those objects and
    whether an exception is pending. *)
Definition jobjectArray : Type := option (list jobject).
Definition JavaHeap : Type := positive -> J2534MessageStruct.

Record ReadState : Type := mkRead {
  java_heap : JavaHeap;
  exception_pending : bool
}.

(** Write [obj] through the reference [ref]. *)
Definition heap_store (heap : JavaHeap) (ref : positive)
  (obj : J2534MessageStruct) : JavaHeap :=
  fun r => if decide (r = ref) then obj else heap r.

(** [GetObjectArrayElement]: the reference at index [i], or [NULL] with an
    [ArrayIndexOutOfBoundsException] thrown when there is no such index. *)
Definition GetObjectArrayElement_ref (messages : list jobject) (i : Z)
  : jobject * bool :=
  if i <? 0 then (None, true)
  else match messages !! Z.to_nat i with
       | Some ref => (ref, false)
       | None => (None, true)
       end.

(** The loop of [readMessages], from index [i], [n] turns left; [clock i]
    is what [time(NULL)] returns in turn [i]. [setJavaMessage] writes
    through the reference it is given. An exception, once thrown, stays
    pending; the calls made after it are taken to answer as before. *)
Fixpoint readMessages_loop (n : nat) (i : Z) (clock : Z -> Z)
  (messages : list jobject) (st : ReadState) : ReadState :=
  match n with
  | O => st
  | S n' =>
      let '(msgObj, thrown) := GetObjectArrayElement_ref messages i in
      let pending := exception_pending st || thrown in
      match msgObj with
      | Some ref =>
          let cMsg := mkMessage ISO15765 0 0 (to_jlong (clock i * 1000))
                                (Some sampleData) 0 in
          readMessages_loop n' (i + 1) clock messages
            (mkRead (heap_store (java_heap st) ref
                       (setJavaMessage (java_heap st ref) cMsg))
                    pending)
      | None =>
          readMessages_loop n' (i + 1) clock messages
            (mkRead (java_heap st) pending)
      end
  end.

Definition readMessages (handle : Z) (messages : jobjectArray)
  (numMessages timeout : Z) (clock : Z -> Z) (heap : JavaHeap)
  : M (Z * ReadState) :=
  match messages with
  | None =>
      setLastError "Messages array is null" >>
      ret (ERR_NULL_PARAMETER, mkRead heap false)
  | Some refs =>
      let messagesToReturn := if numMessages <? 3 then numMessages else 3 in
      ret (STATUS_NOERROR,
           readMessages_loop (Z.to_nat messagesToReturn) 0 clock refs
                             (mkRead heap false))
  end.

(** The loop of [writeMessages], from index [i], [n] turns left. *)
Fixpoint writeMessages_loop (n : nat) (i : Z)
  (messages : list (option J2534MessageStruct)) : M Z :=
  match n with
  | O => ret STATUS_NOERROR
  | S n' =>
      match GetObjectArrayElement messages i with
      | Some msgObj =>
          let cMsg := getJavaMessage msgObj in
          if (protocolID cMsg <? 1) || (protocolID cMsg >? 10) then
            setLastError "Invalid protocol ID in message" >> ret ERR_INVALID_MSG
          else writeMessages_loop n' (i + 1) messages
      | None => writeMessages_loop n' (i + 1) messages
      end
  end.

Definition writeMessages (handle : Z) (messages : jmessageArray)
  (numMessages timeout : Z) : M Z :=
  match messages with
  | None => setLastError "Messages array is null" >> ret ERR_NULL_PARAMETER
  | Some msgs => writeMessages_loop (Z.to_nat numMessages) 0 msgs
  end.

Definition startPeriodicMessage (handle : Z) (message : jobject)
  (id period : Z) : M Z :=
  match message with
  | None => setLastError "Message is null" >> ret ERR_NULL_PARAMETER
  | Some _ => ret STATUS_NOERROR
  end.

Definition stopPeriodicMessage (handle id : Z) : M Z := ret STATUS_NOERROR.

Definition startMessageFilter (handle filterType : Z)
  (mask pattern flowControl : jobject) : M Z :=
  match mask, pattern with
  | Some _, Some _ =>
      if negb (filterType =? PASS_FILTER) && negb (filterType =? BLOCK_FILTER)
         && negb (filterType =? FLOW_CONTROL_FILTER) then
        setLastError "Invalid filter type" >> ret ERR_INVALID_IOCTL_VALUE
      else ret (to_jlong (1000 + handle))
  | _, _ => setLastError "Mask or pattern is null" >> ret ERR_NULL_PARAMETER
  end.

Definition stopMessageFilter (handle filterId : Z) : M Z := ret STATUS_NOERROR.

Definition setProgrammingVoltage (handle pinNumber voltage : Z) : M Z :=
  if (pinNumber <? 1) || (pinNumber >? 16) then
    setLastError "Invalid pin number" >> ret ERR_PIN_INVALID
  else ret STATUS_NOERROR.

(** [readVersion] only calls methods of the three Java objects it is given. *)
Definition readVersion (handle : Z) (apiVersion dllVersion devVersion : jobject)
  : M Z := ret STATUS_NOERROR.

Definition getLastError : M string := fun w => (g_last_error w, w).

Definition ioctl (handle ioControlCode input output : Z) : M Z :=
  if ioControlCode =? 0x01 then ret STATUS_NOERROR
  else if ioControlCode =? 0x02 then ret STATUS_NOERROR
  else if ioControlCode =? 0x03 then ret STATUS_NOERROR
  else if ioControlCode =? 0x07 then ret STATUS_NOERROR
  else setLastError "Unsupported IOCTL operation" >> ret ERR_INVALID_IOCTL_ID.

(** *** Sessions: sequences of calls into the wrapper *)

Inductive Call : Type :=
  | CallInitialize
  | CallScanForDevices
  | CallConnect (deviceHandle protocol flags baudrate : Z)
  | CallDisconnect (handle : Z)
  | CallReadMessages (handle : Z) (messages : jobjectArray)
                     (numMessages timeout : Z) (clock : Z -> Z)
                     (heap : JavaHeap)
  | CallWriteMessages (handle : Z) (messages : jmessageArray)
                      (numMessages timeout : Z)
  | CallStartPeriodicMessage (handle : Z) (message : jobject) (id period : Z)
  | CallStopPeriodicMessage (handle id : Z)
  | CallStartMessageFilter (handle filterType : Z)
                           (mask pattern flowControl : jobject)
  | CallStopMessageFilter (handle filterId : Z)
  | CallSetProgrammingVoltage (handle pinNumber voltage : Z)
  | CallReadVersion (handle : Z) (apiVersion dllVersion devVersion : jobject)
  | CallGetLastError
  | CallIoctl (handle ioControlCode input output : Z)
  | CallCleanup.

Inductive Value : Type :=
  | VVoid
  | VBool (b : bool)
  | VLong (z : Z)
  | VString (s : string)
  | VDevices (l : list J2534DeviceStruct)
  | VMessages (status : Z) (result : ReadState).

Definition fmapM {A B} (f : A -> B) (m : M A) : M B :=
  let* a := m in ret (f a).

Definition step (c : Call) : M Value :=
  match c with
  | CallInitialize => fmapM VBool initialize
  | CallScanForDevices => fmapM VDevices scanForDevices
  | CallConnect d p f b => fmapM VLong (connect d p f b)
  | CallDisconnect h => fmapM VLong (disconnect h)
  | CallReadMessages h ms n t clock heap =>
      fmapM (fun r => VMessages (fst r) (snd r))
            (readMessages h ms n t clock heap)
  | CallWriteMessages h ms n t => fmapM VLong (writeMessages h ms n t)
  | CallStartPeriodicMessage h m i p => fmapM VLong (startPeriodicMessage h m i p)
  | CallStopPeriodicMessage h i => fmapM VLong (stopPeriodicMessage h i)
  | CallStartMessageFilter h ft m p fc =>
      fmapM VLong (startMessageFilter h ft m p fc)
  | CallStopMessageFilter h i => fmapM VLong (stopMessageFilter h i)
  | CallSetProgrammingVoltage h p v => fmapM VLong (setProgrammingVoltage h p v)
  | CallReadVersion h a d v => fmapM VLong (readVersion h a d v)
  | CallGetLastError => fmapM VString getLastError
  | CallIoctl h c i o => fmapM VLong (ioctl h c i o)
  | CallCleanup => fmapM (fun _ => VVoid) cleanup
  end.

(** Run a session; the values returned come out in call order. *)
Fixpoint run (calls : list Call) : M (list Value) :=
  match calls with
  | [] => ret []
  | c :: rest => let* v := step c in let* vs := run rest in ret (v :: vs)
  end.

(** The worlds a session can reach from the loaded library. *)
Inductive reachable : World -> Prop :=
  | reachable_initial : reachable initial
  | reachable_step w c : reachable w -> reachable (snd (step c w)).

(** What the caller holds after a session: the channel handles that
    [connect] returned for a valid protocol and that no later [disconnect]
    was given. The wrapper keeps no such list itself. *)
Fixpoint held_channels (calls : list Call) (held : list Z) : M (list Z) :=
  match calls with
  | [] => ret held
  | CallConnect d p f b :: rest =>
      let* r := connect d p f b in
      held_channels rest
        (if (p <? 1) || (p >? 10) then held else r :: held)
  | CallDisconnect h :: rest =>
      let* _ := disconnect h in
      held_channels rest (filter (fun c => c <> h) held)
  | c :: rest => let* _ := step c in held_channels rest held
  end.

(** *** Vocabulary of the properties *)

(** The registry part of a world. *)
Definition registry (w : World) : list J2534DeviceStruct * Z :=
  (g_devices w, g_device_count w).

Definition in_protocol_range (p : Z) : Prop := 1 <= p <= 10.

(** The filter types of [j2534_jni.h]. *)
Definition is_filter_type (t : Z) : Prop :=
  t = PASS_FILTER \/ t = BLOCK_FILTER \/ t = FLOW_CONTROL_FILTER.

(** The device that the scan loop registers at loop index [i]. *)
Definition scanned_device (i : Z) : J2534DeviceStruct :=
  mkDevice (1000 + i)
           (snprintf 256 ("J2534_Device_" +:+ pretty i))
           (snprintf 128 ("Vendor_" +:+ pretty i))
           (snprintf 64 ("1.0." +:+ pretty i))
           (snprintf 64 "04.04") (snprintf 64 "04.04").

(** The registry holds 32 slots, an even number of them in use, and the
    slot at an even index holds handle 1000, at an odd index 1001. *)
Record registry_ok (w : World) : Prop := {
  ok_length : length (g_devices w) = 32%nat;
  ok_count : 0 <= g_device_count w <= 32;
  ok_even : Z.even (g_device_count w) = true;
  ok_handles : forall (i : nat) (d : J2534DeviceStruct),
    Z.of_nat i < g_device_count w -> g_devices w !! i = Some d ->
    handle d = 1000 + Z.of_nat i mod 2
}.

(** The texts [setLastError] is called with in this file. *)
Definition error_messages : list string :=
  ["Invalid protocol ID"; "Messages array is null";
   "Invalid protocol ID in message"; "Message is null";
   "Mask or pattern is null"; "Invalid filter type"; "Invalid pin number";
   "Unsupported IOCTL operation"].


(** [k] scans in a row. *)
Definition scans (k : nat) (w : World) : World :=
  Nat.iter k (fun w' => snd (scanForDevices w')) w.

End Jni.

(** * JNI method descriptors

    The grammar of the Java VM specification: a parenthesised sequence of
    field types, then the return type. *)
Module Descriptor.
Import Stdlib.Strings.Ascii.

Inductive jtype : Type :=
  | TBoolean | TByte | TChar | TShort | TInt | TLong | TFloat | TDouble
  | TClass (name : string)
  | TArray (t : jtype).

(** The class name up to [;], and what follows it. *)
Fixpoint class_name (s : string) : option (string * string) :=
  match s with
  | EmptyString => None
  | String c rest =>
      if Ascii.eqb c ";"%char then Some (EmptyString, rest)
      else match class_name rest with
           | Some (name, rest') => Some (String c name, rest')
           | None => None
           end
  end.

(** One field type at the head of [s], and what follows it. *)
Fixpoint field_type (s : string) : option (jtype * string) :=
  match s with
  | EmptyString => None
  | String c rest =>
      if Ascii.eqb c "Z"%char then Some (TBoolean, rest)
      else if Ascii.eqb c "B"%char then Some (TByte, rest)
      else if Ascii.eqb c "C"%char then Some (TChar, rest)
      else if Ascii.eqb c "S"%char then Some (TShort, rest)
      else if Ascii.eqb c "I"%char then Some (TInt, rest)
      else if Ascii.eqb c "J"%char then Some (TLong, rest)
      else if Ascii.eqb c "F"%char then Some (TFloat, rest)
      else if Ascii.eqb c "D"%char then Some (TDouble, rest)
      else if Ascii.eqb c "L"%char then
        match class_name rest with
        | Some (name, rest') => Some (TClass name, rest')
        | None => None
        end
      else if Ascii.eqb c "["%char then
        match field_type rest with
        | Some (t, rest') => Some (TArray t, rest')
        | None => None
        end
      else None
  end.

(** The field types up to [)]. *)
Fixpoint parameter_types (fuel : nat) (s : string) : option (list jtype) :=
  match fuel with
  | O => None
  | S fuel' =>
      match s with
      | EmptyString => None
      | String c rest =>
          if Ascii.eqb c ")"%char then Some []
          else match field_type s with
               | Some (t, rest') =>
                   match parameter_types fuel' rest' with
                   | Some ts => Some (t :: ts)
                   | None => None
                   end
               | None => None
               end
      end
  end.

(** The parameter types a method descriptor declares. *)
Definition descriptor_parameters (d : string) : option (list jtype) :=
  match d with
  | EmptyString => None
  | String c rest =>
      if Ascii.eqb c "("%char then parameter_types (S (String.length rest)) rest
      else None
  end.

End Descriptor.

(** * [j2534_native.cpp] *)
Module Native.

(** A loaded image and a resolved symbol are non-null addresses; the
    nullable [HMODULE] and function pointers of the source are [option]s. *)
Definition HMODULE : Type := Z.
Definition FARPROC : Type := Z.

(** [J2534_LIBRARY], the function table of a bound driver. *)
Record J2534_LIBRARY : Type := mkLibrary {
  hLibrary : option HMODULE;
  PassThruOpen : option FARPROC;
  PassThruClose : option FARPROC;
  PassThruConnect : option FARPROC;
  PassThruDisconnect : option FARPROC;
  PassThruReadMsgs : option FARPROC;
  PassThruWriteMsgs : option FARPROC;
  PassThruStartMsgFilter : option FARPROC;
  PassThruStopMsgFilter : option FARPROC;
  PassThruSetProgrammingVoltage : option FARPROC;
  PassThruReadVersion : option FARPROC;
  PassThruGetLastError : option FARPROC;
  PassThruIoctl : option FARPROC
}.

(** The process as this unit sees it: the images the loader holds (one entry
    per [LoadLibraryA] not yet matched by a [FreeLibrary]), the live
    [malloc]ed tables by address, the two globals, and the calls that went
    through a table. *)
Record Process : Type := mkProcess {
  images : list HMODULE;
  heap : gmap Z J2534_LIBRARY;
  g_j2534_lib : option Z;
  g_last_error : Z;
  driver_calls : list DriverCall
}.

Definition initial : Process := mkProcess [] ∅ None 0 [].

Definition P : Type -> Type := StateM Process.

Definition set_images (f : list HMODULE -> list HMODULE) : P unit := fun p =>
  (tt, mkProcess (f (images p)) (heap p) (g_j2534_lib p) (g_last_error p)
                 (driver_calls p)).
Definition set_heap (f : gmap Z J2534_LIBRARY -> gmap Z J2534_LIBRARY)
  : P unit := fun p =>
  (tt, mkProcess (images p) (f (heap p)) (g_j2534_lib p) (g_last_error p)
                 (driver_calls p)).
Definition set_g_j2534_lib (lib : option Z) : P unit := fun p =>
  (tt, mkProcess (images p) (heap p) lib (g_last_error p) (driver_calls p)).
Definition set_g_last_error (e : Z) : P unit := fun p =>
  (tt, mkProcess (images p) (heap p) (g_j2534_lib p) e (driver_calls p)).

(** Drop one reference to an image. *)
Fixpoint release (h : HMODULE) (l : list HMODULE) : list HMODULE :=
  match l with
  | [] => []
  | x :: l' => if x =? h then l' else x :: release h l'
  end.

Definition FreeLibrary (h : HMODULE) : P unit := set_images (release h).
Definition free (lib : Z) : P unit := set_heap (delete lib).

Section Loader.

(** The operating system: which image a path loads, which symbols an image
    exports, and where the allocator puts a block given the live ones
    ([None]: it has no memory). *)
Variable LoadLibraryA_result : string -> option HMODULE.
Variable GetProcAddress : HMODULE -> string -> option FARPROC.
Variable malloc_result : gmap Z J2534_LIBRARY -> option Z.

Definition LoadLibraryA (path : string) : P (option HMODULE) :=
  match LoadLibraryA_result path with
  | Some h => set_images (cons h) >> ret (Some h)
  | None => ret None
  end.

Definition is_null {A} (p : option A) : bool :=
  match p with None => true | Some _ => false end.

Definition load_j2534_library (library_path : string) : P (option Z) :=
  let* hLib := LoadLibraryA library_path in
  match hLib with
  | None => ret None
  | Some hLib =>
      let* heap0 := (fun p => (heap p, p)) in
      match malloc_result heap0 with
      | None => FreeLibrary hLib >> ret None
      | Some lib =>
          let table :=
            mkLibrary (Some hLib)
              (GetProcAddress hLib "PassThruOpen")
              (GetProcAddress hLib "PassThruClose")
              (GetProcAddress hLib "PassThruConnect")
              (GetProcAddress hLib "PassThruDisconnect")
              (GetProcAddress hLib "PassThruReadMsgs")
              (GetProcAddress hLib "PassThruWriteMsgs")
              (GetProcAddress hLib "PassThruStartMsgFilter")
              (GetProcAddress hLib "PassThruStopMsgFilter")
              (GetProcAddress hLib "PassThruSetProgrammingVoltage")
              (GetProcAddress hLib "PassThruReadVersion")
              (GetProcAddress hLib "PassThruGetLastError")
              (GetProcAddress hLib "PassThruIoctl") in
          set_heap <[lib := table]> >>
          if is_null (PassThruOpen table) || is_null (PassThruClose table)
             || is_null (PassThruConnect table)
             || is_null (PassThruDisconnect table) then
            FreeLibrary hLib >> free lib >> ret None
          else ret (Some lib)
      end
  end.

(** [lib] is [NULL] or the address of a live table (anything else is not a
    pointer the function may be given; the model leaves the process as it
    is). *)
Definition unload_j2534_library (lib : option Z) : P unit :=
  match lib with
  | None => ret tt
  | Some a =>
      let* heap0 := (fun p => (heap p, p)) in
      match heap0 !! a with
      | Some table =>
          match hLibrary table with
          | Some h => FreeLibrary h
          | None => ret tt
          end >> free a
      | None => ret tt
      end
  end.

(** [nativeLoadLibrary]; [library_path] is what [GetStringUTFChars] gave. *)
Definition nativeLoadLibrary (library_path : option string) : P Z :=
  match library_path with
  | None => set_g_last_error 0x00000004 >> ret 0
  | Some path =>
      let* lib := load_j2534_library path in
      match lib with
      | None => set_g_last_error 0x00000007 >> ret 0
      | Some a => set_g_j2534_lib (Some a) >> set_g_last_error 0 >> ret a
      end
  end.

(** The bound driver: the status and the out-parameter it answers a call
    with, given the calls it has seen. *)
Variable driver : list DriverCall -> DriverCall -> Z * Z.

Definition call_driver (c : DriverCall) : P (Z * Z) := fun p =>
  (driver (driver_calls p) c,
   mkProcess (images p) (heap p) (g_j2534_lib p) (g_last_error p)
             (driver_calls p ++ [c])).

(** [g_j2534_lib == nullptr || g_j2534_lib->f == nullptr] *)
Definition unbound (f : J2534_LIBRARY -> option FARPROC) : P bool := fun p =>
  (match g_j2534_lib p with
   | None => true
   | Some a => match heap p !! a with
               | Some table => is_null (f table)
               | None => true
               end
   end, p).

Definition nativePassThruOpen (name : option string) : P Z :=
  let* u := unbound PassThruOpen in
  if u then set_g_last_error 0x00000008 >> ret (-1)
  else
    let* r := call_driver (DrvOpen name) in
    set_g_last_error (to_ulong (fst r)) >>
    if fst r =? 0 then ret (to_jint (snd r)) else ret (-1).

Definition nativePassThruClose (device_id : Z) : P Z :=
  let* u := unbound PassThruClose in
  if u then set_g_last_error 0x00000008 >> ret 0x00000008
  else
    let* r := call_driver (DrvClose (to_ulong device_id)) in
    set_g_last_error (to_ulong (fst r)) >> ret (to_jint (fst r)).

Definition nativePassThruConnect (device_id protocol_id flags baud_rate : Z)
  : P Z :=
  let* u := unbound PassThruConnect in
  if u then set_g_last_error 0x00000008 >> ret (-1)
  else
    let* r := call_driver (DrvConnect (to_ulong device_id) (to_ulong protocol_id)
                                      (to_ulong flags) (to_ulong baud_rate)) in
    set_g_last_error (to_ulong (fst r)) >>
    if fst r =? 0 then ret (to_jint (snd r)) else ret (-1).

Definition nativePassThruDisconnect (channel_id : Z) : P Z :=
  let* u := unbound PassThruDisconnect in
  if u then set_g_last_error 0x00000008 >> ret 0x00000008
  else
    let* r := call_driver (DrvDisconnect (to_ulong channel_id)) in
    set_g_last_error (to_ulong (fst r)) >> ret (to_jint (fst r)).

Definition nativeGetLastError : P Z := fun p => (to_jint (g_last_error p), p).

End Loader.

(** *** The message marshaller *)

(** [PASSTHRU_MSG]: six [unsigned long]s and [unsigned char Data[4128]]. *)
Record PASSTHRU_MSG : Type := mkNativeMsg {
  ProtocolID : Z;
  RxStatus : Z;
  TxFlags : Z;
  Timestamp : Z;
  DataSize : Z;
  ExtraDataIndex : Z;
  Data : list byte
}.

(** [sizeof(native_msg->Data)] *)
Definition sizeof_Data : Z := 4128.

Definition PASSTHRU_MSG_wf (n : PASSTHRU_MSG) : Prop :=
  length (Data n) = Z.to_nat sizeof_Data.

(** The fields of the Java [J2534Message] that the marshaller reads:
    [int]s, a [long] timestamp and a nullable [byte[]]. *)
Record J2534Message : Type := mkJavaMsg {
  protocolId : Z;
  rxStatus : Z;
  txFlags : Z;
  timestamp : Z;
  dataSize : Z;
  extraDataIndex : Z;
  data : option (list byte)
}.

(** [memcpy (dst, src, n)] with [n] within both. *)
Definition memcpy (dst src : list byte) (n : nat) : list byte :=
  take n src ++ drop n dst.

(** [convert_java_message_to_native] writes through [native_msg]; the result
    is what [native_msg] points to afterwards. *)
Definition convert_java_message_to_native
  (java_msg : option J2534Message) (native_msg : option PASSTHRU_MSG)
  : option PASSTHRU_MSG :=
  match java_msg, native_msg with
  | Some j, Some n =>
      Some (mkNativeMsg
        (to_ulong (protocolId j))
        (to_ulong (rxStatus j))
        (to_ulong (txFlags j))
        (to_ulong (timestamp j))
        (to_ulong (dataSize j))
        (to_ulong (extraDataIndex j))
        (match data j with
         | Some data_bytes =>
             let data_length := Z.of_nat (length data_bytes) in
             let copy_length :=
               if data_length >? sizeof_Data then sizeof_Data else data_length in
             memcpy (Data n) data_bytes (Z.to_nat copy_length)
         | None => Data n
         end))
  | _, _ => native_msg
  end.

(** What the JNI environment answers: whether [FindClass] finds the class
    [J2534Message], whether [GetMethodID] finds in it a constructor of the
    descriptor it is asked for, and whether [NewByteArray] has memory. *)
Record JNIEnv : Type := mkEnv {
  FindClass_ok : bool;
  GetMethodID_ok : bool;
  NewByteArray_ok : bool
}.

(** An argument handed to [NewObject]. *)
Inductive jvalue : Type :=
  | JInt (z : Z)
  | JLong (z : Z)
  | JByteArray (a : option (list byte)).

(** The descriptor [convert_native_message_to_java] looks the constructor
    up by. *)
Definition constructor_descriptor : string := "(IIJII[B)V".

(** The outcome of [convert_native_message_to_java]: [nullptr] before any
    object is built; a read past the end of [Data] (when [DataSize] exceeds
    the buffer, [SetByteArrayRegion] is handed more bytes than there are);
    or whatever [NewObject] returns for the constructor found under
    [descriptor], called with [args], with or without an exception of an
    earlier call still pending. The class is not among the sources, so the
    call is recorded, not interpreted. *)
Inductive Decoded : Type :=
  | Null
  | ReadsPastData
  | NewObject (descriptor : string) (args : list jvalue)
              (exception_pending : bool).

Definition convert_native_message_to_java
  (env : JNIEnv) (native_msg : option PASSTHRU_MSG) : Decoded :=
  match native_msg with
  | None => Null
  | Some n =>
      if negb (FindClass_ok env) then Null
      else if negb (GetMethodID_ok env) then Null
      else
        let size := to_jint (DataSize n) in
        let data_array : option (list byte) :=
          if size <? 0 then None
          else if NewByteArray_ok env then Some (replicate (Z.to_nat size) x00)
          else None in
        let construct (arr : option (list byte)) : Decoded :=
          NewObject constructor_descriptor
            [JInt (to_jint (ProtocolID n)); JInt (to_jint (RxStatus n));
             JInt (to_jint (TxFlags n)); JLong (to_jlong (Timestamp n));
             JInt (to_jint (DataSize n)); JInt (to_jint (ExtraDataIndex n));
             JByteArray arr]
            (is_null data_array) in
        match data_array with
        | Some arr =>
            if DataSize n >? 0 then
              if size >? sizeof_Data then ReadsPastData
              else construct (Some (memcpy arr (Data n) (Z.to_nat size)))
            else construct (Some arr)
        | None => construct None
        end
  end.

(** The type a descriptor must declare for an argument. *)
Definition jvalue_type (v : jvalue) : Descriptor.jtype :=
  match v with
  | JInt _ => Descriptor.TInt
  | JLong _ => Descriptor.TLong
  | JByteArray _ => Descriptor.TArray Descriptor.TByte
  end.

(** *** Vocabulary of the properties *)

(** The number of bytes [convert_java_message_to_native] copies. *)
Definition copy_length (payload : list byte) : nat :=
  Z.to_nat (if Z.of_nat (length payload) >? sizeof_Data then sizeof_Data
            else Z.of_nat (length payload)).

Section Resolution.

Variable GetProcAddress : HMODULE -> string -> option FARPROC.

(** The table [load_j2534_library] fills in for image [h]: the twelve entry
    points, each as [GetProcAddress] resolves it. *)
Definition resolved_table (h : HMODULE) : J2534_LIBRARY :=
  mkLibrary (Some h)
    (GetProcAddress h "PassThruOpen")
    (GetProcAddress h "PassThruClose")
    (GetProcAddress h "PassThruConnect")
    (GetProcAddress h "PassThruDisconnect")
    (GetProcAddress h "PassThruReadMsgs")
    (GetProcAddress h "PassThruWriteMsgs")
    (GetProcAddress h "PassThruStartMsgFilter")
    (GetProcAddress h "PassThruStopMsgFilter")
    (GetProcAddress h "PassThruSetProgrammingVoltage")
    (GetProcAddress h "PassThruReadVersion")
    (GetProcAddress h "PassThruGetLastError")
    (GetProcAddress h "PassThruIoctl").

Definition mandatory_missing (h : HMODULE) : Prop :=
  GetProcAddress h "PassThruOpen" = None \/
  GetProcAddress h "PassThruClose" = None \/
  GetProcAddress h "PassThruConnect" = None \/
  GetProcAddress h "PassThruDisconnect" = None.

Definition mandatory_test (h : HMODULE) : bool :=
  is_null (GetProcAddress h "PassThruOpen")
  || is_null (GetProcAddress h "PassThruClose")
  || is_null (GetProcAddress h "PassThruConnect")
  || is_null (GetProcAddress h "PassThruDisconnect").

End Resolution.

(** A table at address [a] is bound and has entry point [f]. *)
Definition bound (p : Process) (f : J2534_LIBRARY -> option FARPROC) : Prop :=
  exists (a : Z) (table : J2534_LIBRARY),
    g_j2534_lib p = Some a /\ heap p !! a = Some table /\ is_Some (f table).

(** A driver image that exports the four mandatory entry points and
    nothing else, and one that lacks [PassThruDisconnect]. *)
Definition minimal_driver (h : HMODULE) (symbol : string) : option FARPROC :=
  if decide (symbol ∈ ["PassThruOpen"; "PassThruClose"; "PassThruConnect";
                       "PassThruDisconnect"])
  then Some 100 else None.
Definition broken_driver (h : HMODULE) (symbol : string) : option FARPROC :=
  if decide (symbol = "PassThruDisconnect") then None else Some 100.
Definition bump_allocator (live : gmap Z J2534_LIBRARY) : option Z :=
  match live !! 4096 with Some _ => None | None => Some 4096 end.

(** An allocator with two blocks, at 4096 and 4097. *)
Definition two_blocks (live : gmap Z J2534_LIBRARY) : option Z :=
  match live !! 4096 with
  | None => Some 4096
  | Some _ => match live !! 4097 with None => Some 4097 | Some _ => None end
  end.

End Native.

(** * Properties of [j2534_jni.cpp] *)
Module JniTheory.
Import Jni.

(** Unfold the state passing, split on every test, and close the cases
    by computation. *)
Ltac by_cases :=
  unfold fmapM, bind, ret, setLastError in *; simpl in *;
  repeat (case_match; simplify_eq/=); try done.

(** ** Frame lemmas: what each function leaves alone *)

Lemma protocol_test_true (p : Z) :
  (p <? 1) || (p >? 10) = true <-> ~ in_protocol_range p.
Proof. unfold in_protocol_range. rewrite orb_true_iff. lia. Qed.

Lemma protocol_test_false (p : Z) :
  (p <? 1) || (p >? 10) = false <-> in_protocol_range p.
Proof. unfold in_protocol_range. rewrite orb_false_iff. lia. Qed.

Lemma connect_valid (w : World) (d p f b : Z) :
  in_protocol_range p -> connect d p f b w = (to_jlong (d + 10000), w).
Proof.
  intros Hp. unfold connect.
  apply protocol_test_false in Hp. by rewrite Hp.
Qed.

Lemma connect_invalid (w : World) (d p f b : Z) :
  ~ in_protocol_range p ->
  connect d p f b w =
  (ERR_INVALID_PROTOCOL_ID,
   mkWorld (g_devices w) (g_device_count w) "Invalid protocol ID"
           (driver_calls w)).
Proof.
  intros Hp. unfold connect.
  apply protocol_test_true in Hp. by rewrite Hp.
Qed.

Lemma writeMessages_loop_frame (msgs : list (option J2534MessageStruct)) (n : nat) :
  forall (i : Z) (w : World),
    registry (snd (writeMessages_loop n i msgs w)) = registry w /\
    driver_calls (snd (writeMessages_loop n i msgs w)) = driver_calls w.
Proof.
  induction n as [|n IH]; intros i w; simpl; [done|].
  destruct (GetObjectArrayElement msgs i) as [m|]; [|apply IH].
  case_match; [split; reflexivity|apply IH].
Qed.

Lemma scan_iteration_driver_calls (i : Z) (l : list J2534DeviceStruct) (w : World) :
  driver_calls (snd (scan_iteration i l w)) = driver_calls w.
Proof. unfold scan_iteration. by case_match. Qed.

Lemma scanForDevices_driver_calls (w : World) :
  driver_calls (snd (scanForDevices w)) = driver_calls w.
Proof.
  unfold scanForDevices; simpl. unfold bind.
  pose proof (scan_iteration_driver_calls 0 [] w) as H0.
  destruct (scan_iteration 0 [] w) as [l0 w0]; simpl in *.
  pose proof (scan_iteration_driver_calls (0 + 1) l0 w0) as H1.
  destruct (scan_iteration (0 + 1) l0 w0) as [l1 w1]; simpl in *.
  congruence.
Qed.

(** No call into the wrapper reaches a driver. *)
Lemma step_driver_calls (c : Call) (w : World) :
  driver_calls (snd (step c w)) = driver_calls w.
Proof.
  destruct c; simpl; try reflexivity.
  - unfold fmapM, bind. pose proof (scanForDevices_driver_calls w).
    by destruct (scanForDevices w).
  - unfold connect; by_cases.
  - unfold readMessages; by_cases.
  - unfold fmapM, bind, writeMessages.
    destruct messages as [msgs|]; [|done].
    pose proof (writeMessages_loop_frame msgs (Z.to_nat numMessages) 0 w) as [_ H].
    by destruct (writeMessages_loop _ _ _ _).
  - unfold startPeriodicMessage; by_cases.
  - unfold startMessageFilter; by_cases.
  - unfold setProgrammingVoltage; by_cases.
  - unfold ioctl; by_cases.
Qed.

Lemma reachable_no_driver_call (w : World) :
  reachable w -> driver_calls w = [].
Proof.
  induction 1 as [|w c _ IH]; [done|]. by rewrite step_driver_calls.
Qed.

(** ** The registry invariant *)

Lemma registry_ok_reset (dc : list DriverCall) :
  registry_ok (mkWorld (replicate 32 zero_device) 0 "" dc).
Proof. split; simpl; [done|lia|done|intros; lia]. Qed.

Lemma registry_ok_frame (w w' : World) :
  registry w' = registry w -> registry_ok w -> registry_ok w'.
Proof.
  unfold registry. intros [= Hd Hc] [H1 H2 H3 H4].
  split; rewrite ?Hd, ?Hc; done.
Qed.

(** A scan with room for two devices. *)
Lemma scanForDevices_room (w : World) :
  g_device_count w + 1 < 32 ->
  scanForDevices w =
  ([scanned_device 0; scanned_device 1],
   mkWorld (<[Z.to_nat (g_device_count w + 1) := scanned_device 1]>
              (<[Z.to_nat (g_device_count w) := scanned_device 0]> (g_devices w)))
           (g_device_count w + 1 + 1) (g_last_error w) (driver_calls w)).
Proof.
  intros Hc. unfold scanForDevices; simpl. unfold bind, scan_iteration.
  destruct (g_device_count w <? 32) eqn:E1; [|lia]. simpl.
  destruct (g_device_count w + 1 <? 32) eqn:E2; [|lia]. reflexivity.
Qed.

(** A scan of a full registry. *)
Lemma scanForDevices_full (w : World) :
  32 <= g_device_count w -> scanForDevices w = ([], w).
Proof.
  intros Hc. unfold scanForDevices; simpl. unfold bind, scan_iteration.
  assert (E1 : (g_device_count w <? 32) = false) by lia.
  rewrite E1; simpl. by rewrite E1.
Qed.

Lemma even_lt_32 (c : Z) : Z.even c = true -> c < 32 -> c + 1 < 32.
Proof.
  intros He Hc. destruct (Z.eq_dec c 31) as [->|]; [done|lia].
Qed.

Lemma scanForDevices_ok (w : World) :
  registry_ok w -> registry_ok (snd (scanForDevices w)).
Proof.
  intros [H1 H2 H3 H4].
  destruct (Z_lt_le_dec (g_device_count w) 32) as [Hlt|Hge].
  - pose proof (even_lt_32 _ H3 Hlt) as Hroom.
    rewrite scanForDevices_room by done. split; simpl.
    + by rewrite !length_insert.
    + lia.
    + replace (g_device_count w + 1 + 1) with (Z.succ (Z.succ (g_device_count w))) by lia.
      by rewrite Z.even_succ_succ.
    + intros i d Hi Hd.
      assert (Hpar : Z.of_nat (Z.to_nat (g_device_count w)) mod 2 = 0).
      { rewrite Z2Nat.id by lia. apply Zeven_bool_iff in H3.
        apply Zeven_ex in H3 as [k ->]. rewrite Z.mul_comm. apply Z_mod_mult. }
      destruct (decide (i = Z.to_nat (g_device_count w + 1))) as [->|Hne1].
      * rewrite list_lookup_insert_eq in Hd
          by (rewrite length_insert; lia).
        injection Hd as <-. simpl.
        rewrite Z2Nat.id by lia. rewrite Z2Nat.id in Hpar by lia.
        rewrite Z.add_mod by lia. rewrite Hpar. done.
      * rewrite list_lookup_insert_ne in Hd by done.
        destruct (decide (i = Z.to_nat (g_device_count w))) as [->|Hne0].
        -- rewrite list_lookup_insert_eq in Hd by lia.
           injection Hd as <-. simpl. rewrite Hpar. done.
        -- rewrite list_lookup_insert_ne in Hd by done.
           apply H4; [lia|done].
  - rewrite scanForDevices_full by done. by split.
Qed.

(** Only [initialize], [scanForDevices] and [cleanup] write the registry,
    and each keeps it well formed. *)
Lemma step_ok (c : Call) (w : World) :
  registry_ok w -> registry_ok (snd (step c w)).
Proof.
  intros Hok.
  assert (Hframe : forall w', registry w' = registry w -> registry_ok w')
    by (intros w' Hw'; by eapply registry_ok_frame).
  destruct c; simpl; try done; try (apply registry_ok_reset).
  - unfold fmapM, bind. pose proof (scanForDevices_ok w Hok).
    by destruct (scanForDevices w).
  - unfold connect; by_cases; by apply Hframe.
  - unfold readMessages; by_cases; by apply Hframe.
  - unfold fmapM, bind, writeMessages.
    destruct messages as [msgs|]; [|by apply Hframe].
    pose proof (writeMessages_loop_frame msgs (Z.to_nat numMessages) 0 w) as [H _].
    destruct (writeMessages_loop _ _ _ _); simpl in *. by apply Hframe.
  - unfold startPeriodicMessage; by_cases; by apply Hframe.
  - unfold startMessageFilter; by_cases; by apply Hframe.
  - unfold setProgrammingVoltage; by_cases; by apply Hframe.
  - unfold ioctl; by_cases; by apply Hframe.
Qed.

Lemma reachable_ok (w : World) : reachable w -> registry_ok w.
Proof.
  induction 1 as [|w c _ IH]; [apply (registry_ok_reset [])|by apply step_ok].
Qed.

(** Every handle of a slot in use is 1000 or 1001. *)
Lemma active_handle_values (w : World) (h : Z) :
  registry_ok w -> h ∈ active_device_handles w -> h = 1000 \/ h = 1001.
Proof.
  intros [H1 H2 H3 H4] Hin. unfold active_device_handles, active_devices in Hin.
  apply list_elem_of_fmap in Hin as (d & -> & Hd).
  apply list_elem_of_lookup in Hd as [i Hi].
  apply lookup_take_Some in Hi as [Hi Hlt].
  rewrite (H4 i d) by (done || lia).
  pose proof (Z.mod_pos_bound (Z.of_nat i) 2). lia.
Qed.

(** ** [connect] *)

Lemma to_jlong_small (z : Z) : is_jlong z -> to_jlong z = z.
Proof.
  unfold is_jlong, to_jlong, wrap_signed. intros Hz.
  rewrite Z.mod_small; lia.
Qed.

(** C1, as the code has it: for a protocol id in [1,10], [connect] returns
    the channel handle [deviceHandle + 10000] and changes nothing; when
    [deviceHandle] is the handle of a registered device, that channel handle
    is the handle of no registered device. For a protocol id outside [1,10]
    it returns [ERR_INVALID_PROTOCOL_ID], records "Invalid protocol ID",
    leaves the registry as it was and no call reaches a driver. *)
Theorem connect_validates_protocol (w : World) (d p f b : Z) :
  reachable w ->
  (in_protocol_range p ->
     connect d p f b w = (to_jlong (d + 10000), w) /\
     (d ∈ active_device_handles w ->
      to_jlong (d + 10000) ∉ active_device_handles w)) /\
  (~ in_protocol_range p ->
     fst (connect d p f b w) = ERR_INVALID_PROTOCOL_ID /\
     g_last_error (snd (connect d p f b w)) = "Invalid protocol ID" /\
     registry (snd (connect d p f b w)) = registry w /\
     driver_calls (snd (connect d p f b w)) = []).
Proof.
  intros Hr. pose proof (reachable_ok w Hr) as Hok. split.
  - intros Hp. split; [by apply connect_valid|].
    intros Hd Hc.
    apply (active_handle_values w _ Hok) in Hc.
    apply (active_handle_values w _ Hok) in Hd.
    destruct Hd as [-> | ->]; vm_compute in Hc; lia.
  - intros Hp. rewrite connect_invalid by done. simpl.
    repeat split. by apply reachable_no_driver_call.
Qed.

(** After one scan: ISO15765 on device 1000 gives channel 11000, protocol 99
    is refused. *)
Lemma connect_validates_protocol_witness :
  reachable (snd (step CallScanForDevices initial)) /\
  fst (connect 1000 ISO15765 0 500000 (snd (step CallScanForDevices initial)))
  = 11000 /\
  fst (connect 1000 99 0 500000 (snd (step CallScanForDevices initial)))
  = ERR_INVALID_PROTOCOL_ID.
Proof.
  assert (Hr : reachable (snd (step CallScanForDevices initial)))
    by apply reachable_step, reachable_initial.
  split; [exact Hr|]. split.
  - destruct (connect_validates_protocol _ 1000 ISO15765 0 500000 Hr) as [Hv _].
    destruct Hv as [-> _]; [unfold in_protocol_range, ISO15765; lia|].
    reflexivity.
  - destruct (connect_validates_protocol _ 1000 99 0 500000 Hr) as [_ Hi].
    destruct Hi as [-> _]; [unfold in_protocol_range; lia|].
    reflexivity.
Defined.

(** C1 fails as stated: with device 1000 registered and channel 11000 held
    from an earlier [connect] (never disconnected), a second [connect] to the
    same device returns 11000 again. *)
Lemma connect_returns_handle_already_held :
  1000 ∈ active_device_handles
           (snd (held_channels [CallScanForDevices; CallConnect 1000 6 0 500000]
                               [] initial)) /\
  fst (held_channels [CallScanForDevices; CallConnect 1000 6 0 500000]
                     [] initial) = [11000] /\
  fst (connect 1000 6 0 500000
         (snd (held_channels [CallScanForDevices; CallConnect 1000 6 0 500000]
                             [] initial))) = 11000.
Proof.
  split; [|split]; [|reflexivity..].
  vm_compute. apply list_elem_of_here.
Qed.

(** C8, as the code has it: [connect] never looks at the registry. For
    every device handle, registered or not, and protocol id in [1,10], it
    returns [deviceHandle + 10000] as a 64-bit sum, the same whatever the
    registry holds, changes nothing and records no error; when the handle
    and the sum are within the [jlong] range, the device handle is recovered
    by subtracting 10000. *)
Theorem connect_ignores_registry (w w' : World) (d p f b : Z) :
  in_protocol_range p ->
  connect d p f b w = (to_jlong (d + 10000), w) /\
  fst (connect d p f b w') = fst (connect d p f b w) /\
  g_last_error (snd (connect d p f b w)) = g_last_error w /\
  (is_jlong d -> is_jlong (d + 10000) ->
   fst (connect d p f b w) - 10000 = d).
Proof.
  intros Hp. rewrite !connect_valid by done. simpl.
  repeat split. intros Hd Hc. rewrite to_jlong_small by done. lia.
Qed.

(** Handle 42 is no registered device, yet [connect] answers 10042, as it
    does after a scan. *)
Lemma connect_ignores_registry_witness :
  (42 ∉ active_device_handles initial) /\
  connect 42 CAN 0 0 initial = (10042, initial) /\
  fst (connect 42 CAN 0 0 (snd (step CallScanForDevices initial))) = 10042.
Proof.
  destruct (connect_ignores_registry initial
              (snd (step CallScanForDevices initial)) 42 CAN 0 0)
    as (Hr & Hw & _); [unfold in_protocol_range, CAN; lia|].
  split; [vm_compute; apply not_elem_of_nil|].
  split; [exact Hr|]. rewrite Hw, Hr. reflexivity.
Defined.

(** C8 fails as stated: with no device registered at all, [connect] on
    device handle 42 returns the channel handle 10042. *)
Lemma connect_without_open_device :
  active_device_handles initial = [] /\
  connect 42 ISO15765 0 500000 initial = (10042, initial).
Proof. split; reflexivity. Qed.

(** ** [disconnect] and [stopMessageFilter] *)

(** C4, as the code has it: [disconnect] returns [STATUS_NOERROR] and
    changes nothing, and [stopMessageFilter] returns [STATUS_NOERROR] for
    every channel handle and filter id, after a [disconnect] as before it. *)
Theorem stopMessageFilter_after_disconnect (w : World) (channel handle filterId : Z) :
  disconnect channel w = (STATUS_NOERROR, w) /\
  stopMessageFilter handle filterId (snd (disconnect channel w))
  = (STATUS_NOERROR, w).
Proof. split; reflexivity. Qed.

(** C4 fails as stated: scan, connect to device 1000 (channel 11000), start
    a pass filter on it (filter 12000), disconnect the channel, stop the
    filter: the last call returns [STATUS_NOERROR]. *)
Lemma stopMessageFilter_of_disconnected_channel_succeeds :
  drop 1 (fst (run [CallScanForDevices;
                    CallConnect 1000 ISO15765 0 500000;
                    CallStartMessageFilter 11000 PASS_FILTER
                                           (Some 1%positive) (Some 2%positive) None;
                    CallDisconnect 11000;
                    CallStopMessageFilter 11000 12000] initial))
  = [VLong 11000; VLong 12000; VLong STATUS_NOERROR; VLong STATUS_NOERROR].
Proof. reflexivity. Qed.

(** ** [scanForDevices] and the registry bound *)

Lemma active_devices_length (w : World) :
  registry_ok w -> Z.of_nat (length (active_devices w)) = g_device_count w.
Proof.
  intros [H1 H2 _ _]. unfold active_devices. rewrite length_take. lia.
Qed.

(** C5, as the code has it: the registry never holds more than 32 devices.
    While it holds fewer, a scan registers two devices, with the distinct
    handles 1000 and 1001; once it holds 32, a scan registers nothing,
    returns an empty list and leaves every global, the last error included,
    as it was. *)
Theorem registry_bounded_at_32 (w : World) :
  reachable w ->
  0 <= g_device_count w <= 32 /\
  Z.of_nat (length (active_devices w)) = g_device_count w /\
  (g_device_count w < 32 ->
     (handle <$> fst (scanForDevices w)) = [1000; 1001] /\
     g_device_count (snd (scanForDevices w)) = g_device_count w + 2) /\
  (g_device_count w = 32 -> scanForDevices w = ([], w)).
Proof.
  intros Hr. pose proof (reachable_ok w Hr) as Hok.
  split; [apply Hok|]. split; [by apply active_devices_length|]. split.
  - intros Hlt. rewrite scanForDevices_room
      by (apply even_lt_32; [apply Hok|done]).
    simpl. split; [reflexivity|lia].
  - intros Hfull. apply scanForDevices_full. lia.
Qed.

(** The first scan registers handles 1000 and 1001. *)
Lemma registry_bounded_at_32_witness :
  reachable initial /\
  (handle <$> fst (scanForDevices initial)) = [1000; 1001].
Proof.
  split; [apply reachable_initial|].
  destruct (registry_bounded_at_32 initial reachable_initial)
    as (_ & _ & Hroom & _).
  apply Hroom. simpl. lia.
Defined.

(** C5 fails as stated: after two scans the four registered handles are
    1000, 1001, 1000, 1001; and after sixteen scans the registry is full,
    the seventeenth returns an empty list without touching the last error,
    which is still empty. *)
Lemma scan_repeats_handles_and_reports_no_error :
  active_device_handles
    (snd (run [CallScanForDevices; CallScanForDevices] initial))
  = [1000; 1001; 1000; 1001] /\
  g_device_count (snd (run (replicate 16 CallScanForDevices) initial)) = 32 /\
  scanForDevices (snd (run (replicate 16 CallScanForDevices) initial))
  = ([], snd (run (replicate 16 CallScanForDevices) initial)) /\
  g_last_error (snd (run (replicate 16 CallScanForDevices) initial)) = "".
Proof. vm_compute. repeat split. Qed.

(** ** [writeMessages] *)

Lemma GetObjectArrayElement_lookup
  (msgs : list (option J2534MessageStruct)) (j : nat) (m : J2534MessageStruct) :
  GetObjectArrayElement msgs (Z.of_nat j) = Some m <-> msgs !! j = Some (Some m).
Proof.
  unfold GetObjectArrayElement.
  destruct (Z.ltb_spec (Z.of_nat j) 0) as [E|E]; [lia|]. rewrite Nat2Z.id.
  destruct (msgs !! j) as [[m'|]|]; simpl; split; congruence.
Qed.

(** The loop accepts a range of messages whose protocol ids are all valid. *)
Lemma writeMessages_loop_accepts (msgs : list (option J2534MessageStruct)) (n : nat) :
  forall (i : nat) (w : World),
    (forall (j : nat) (m : J2534MessageStruct),
       (i <= j < i + n)%nat -> msgs !! j = Some (Some m) ->
       in_protocol_range (protocolID m)) ->
    writeMessages_loop n (Z.of_nat i) msgs w = (STATUS_NOERROR, w).
Proof.
  induction n as [|n IH]; intros i w Hall; simpl; [done|].
  replace (Z.of_nat i + 1) with (Z.of_nat (S i)) by lia.
  destruct (GetObjectArrayElement msgs (Z.of_nat i)) as [m|] eqn:Hm.
  - apply GetObjectArrayElement_lookup in Hm.
    assert (Hp : in_protocol_range (protocolID m)) by (apply (Hall i); [lia|done]).
    apply protocol_test_false in Hp. simpl. rewrite Hp.
    apply IH. intros j m' Hj. apply Hall. lia.
  - apply IH. intros j m' Hj. apply Hall. lia.
Qed.

(** The loop rejects a range that holds a message with an invalid protocol
    id, however many valid ones come before it. *)
Lemma writeMessages_loop_rejects (msgs : list (option J2534MessageStruct)) (n : nat) :
  forall (i j : nat) (m : J2534MessageStruct) (w : World),
    (i <= j < i + n)%nat -> msgs !! j = Some (Some m) ->
    ~ in_protocol_range (protocolID m) ->
    writeMessages_loop n (Z.of_nat i) msgs w =
    (ERR_INVALID_MSG,
     mkWorld (g_devices w) (g_device_count w) "Invalid protocol ID in message"
             (driver_calls w)).
Proof.
  induction n as [|n IH]; intros i j m w Hj Hm Hbad; simpl; [lia|].
  replace (Z.of_nat i + 1) with (Z.of_nat (S i)) by lia.
  destruct (GetObjectArrayElement msgs (Z.of_nat i)) as [m'|] eqn:Hm'.
  - apply GetObjectArrayElement_lookup in Hm'. simpl.
    destruct ((protocolID m' <? 1) || (protocolID m' >? 10)) eqn:Hp; [done|].
    apply protocol_test_false in Hp.
    apply (IH (S i) j m); [|done..].
    destruct (decide (j = i)) as [->|]; [|lia]. congruence.
  - apply (IH (S i) j m); [|done..].
    destruct (decide (j = i)) as [->|]; [|lia].
    apply GetObjectArrayElement_lookup in Hm. congruence.
Qed.

(** C2: a null array gives [ERR_NULL_PARAMETER]; a batch (the first
    [numMessages] elements of the array) that holds a message whose protocol
    id is outside [1,10] gives [ERR_INVALID_MSG], nothing reaches a driver,
    and the outcome is that of the batch cut off behind an invalid message
    (what follows it plays no part); a batch whose messages all have a
    protocol id in [1,10] gives [STATUS_NOERROR]. *)
Theorem writeMessages_validates_batch
  (w : World) (handle numMessages timeout : Z)
  (msgs : list (option J2534MessageStruct)) :
  writeMessages handle None numMessages timeout w =
    (ERR_NULL_PARAMETER,
     mkWorld (g_devices w) (g_device_count w) "Messages array is null"
             (driver_calls w)) /\
  ((exists (j : nat) (m : J2534MessageStruct),
      Z.of_nat j < numMessages /\ msgs !! j = Some (Some m) /\
      ~ in_protocol_range (protocolID m)) ->
   fst (writeMessages handle (Some msgs) numMessages timeout w) = ERR_INVALID_MSG /\
   driver_calls (snd (writeMessages handle (Some msgs) numMessages timeout w))
   = driver_calls w /\
   registry (snd (writeMessages handle (Some msgs) numMessages timeout w))
   = registry w /\
   forall (j : nat) (m : J2534MessageStruct),
     Z.of_nat j < numMessages -> msgs !! j = Some (Some m) ->
     ~ in_protocol_range (protocolID m) ->
     writeMessages handle (Some msgs) numMessages timeout w =
     writeMessages handle (Some (take (S j) msgs)) (Z.of_nat (S j)) timeout w) /\
  ((forall (j : nat) (m : J2534MessageStruct),
      Z.of_nat j < numMessages -> msgs !! j = Some (Some m) ->
      in_protocol_range (protocolID m)) ->
   writeMessages handle (Some msgs) numMessages timeout w = (STATUS_NOERROR, w)).
Proof.
  split; [reflexivity|]. split.
  - intros (j & m & Hj & Hm & Hbad). unfold writeMessages.
    rewrite (writeMessages_loop_rejects msgs _ 0 j m w); [|lia|done..].
    repeat split. intros j' m' Hj' Hm' Hbad'.
    rewrite (writeMessages_loop_rejects (take (S j') msgs) _ 0 j' m' w);
      [done|lia| |done].
    rewrite lookup_take_lt by lia. done.
  - intros Hall. unfold writeMessages.
    apply (writeMessages_loop_accepts msgs _ 0 w).
    intros j m Hj. apply Hall. lia.
Qed.

(** A batch with protocol id 99 in second place is refused; the batch of
    its first message alone is accepted. *)
Lemma writeMessages_validates_batch_witness :
  fst (writeMessages 11000
         (Some [Some (mkMessage 6 0 0 0 (Some [x02; x10; x03]) 0);
                Some (mkMessage 99 0 0 0 None 0)]) 2 1000 initial)
  = ERR_INVALID_MSG /\
  fst (writeMessages 11000
         (Some [Some (mkMessage 6 0 0 0 (Some [x02; x10; x03]) 0)]) 1 1000 initial)
  = STATUS_NOERROR.
Proof.
  split.
  - destruct (writeMessages_validates_batch initial 11000 2 1000
                [Some (mkMessage 6 0 0 0 (Some [x02; x10; x03]) 0);
                 Some (mkMessage 99 0 0 0 None 0)]) as (_ & Hbad & _).
    apply Hbad. exists 1%nat, (mkMessage 99 0 0 0 None 0).
    unfold in_protocol_range; simpl. split; [lia|]. split; [reflexivity|lia].
  - destruct (writeMessages_validates_batch initial 11000 1 1000
                [Some (mkMessage 6 0 0 0 (Some [x02; x10; x03]) 0)])
      as (_ & _ & Hgood).
    rewrite Hgood; [reflexivity|].
    intros [|j] m Hj Hm; [|lia]. simpl in Hm. injection Hm as <-.
    unfold in_protocol_range; simpl; lia.
Defined.

(** ** [ioctl] *)

(** C9, as the code has it: the four recognised codes (get-config 1,
    set-config 2, get-version 3, read-battery-voltage 7) return
    [STATUS_NOERROR] and change nothing; every other code returns
    [ERR_INVALID_IOCTL_ID] and records "Unsupported IOCTL operation". *)
Theorem ioctl_status (w : World) (handle ioControlCode input output : Z) :
  ioctl handle ioControlCode input output w =
  if decide (ioControlCode ∈ [1; 2; 3; 7]) then (STATUS_NOERROR, w)
  else (ERR_INVALID_IOCTL_ID,
        mkWorld (g_devices w) (g_device_count w) "Unsupported IOCTL operation"
                (driver_calls w)).
Proof.
  unfold ioctl. case_decide as Hin.
  - set_unfold. by destruct Hin as [-> | [-> | [-> | [-> | []]]]].
  - set_unfold.
    destruct (ioControlCode =? 1) eqn:E1; [lia|].
    destruct (ioControlCode =? 2) eqn:E2; [lia|].
    destruct (ioControlCode =? 3) eqn:E3; [lia|].
    destruct (ioControlCode =? 7) eqn:E7; [lia|]. reflexivity.
Qed.

(** C9 fails as stated: the get-config code returns [STATUS_NOERROR], which
    is not [ERR_NOT_SUPPORTED], and so do the other three. *)
Lemma ioctl_recognised_codes_return_noerror :
  ioctl 11000 0x01 0 0 initial = (STATUS_NOERROR, initial) /\
  ioctl 11000 0x02 0 0 initial = (STATUS_NOERROR, initial) /\
  ioctl 11000 0x03 0 0 initial = (STATUS_NOERROR, initial) /\
  ioctl 11000 0x07 0 0 initial = (STATUS_NOERROR, initial) /\
  STATUS_NOERROR <> ERR_NOT_SUPPORTED.
Proof. repeat split; try reflexivity. discriminate. Qed.

(** ** [startMessageFilter] *)

(** C10: a null mask or pattern gives [ERR_NULL_PARAMETER]; with both
    present, a filter type other than pass, block and flow-control gives
    [ERR_INVALID_IOCTL_VALUE]; neither reaches a driver. With both present
    and the flow-control type, the call returns the filter id
    [1000 + handle] whether or not a flow-control message is given. *)
Theorem startMessageFilter_validation
  (w : World) (handle filterType : Z) (mask pattern flowControl : jobject) :
  (mask = None \/ pattern = None ->
   startMessageFilter handle filterType mask pattern flowControl w =
   (ERR_NULL_PARAMETER,
    mkWorld (g_devices w) (g_device_count w) "Mask or pattern is null"
            (driver_calls w))) /\
  (is_Some mask -> is_Some pattern -> ~ is_filter_type filterType ->
   startMessageFilter handle filterType mask pattern flowControl w =
   (ERR_INVALID_IOCTL_VALUE,
    mkWorld (g_devices w) (g_device_count w) "Invalid filter type"
            (driver_calls w))) /\
  (is_Some mask -> is_Some pattern ->
   startMessageFilter handle FLOW_CONTROL_FILTER mask pattern None w =
   (to_jlong (1000 + handle), w) /\
   startMessageFilter handle FLOW_CONTROL_FILTER mask pattern flowControl w =
   (to_jlong (1000 + handle), w)).
Proof.
  unfold is_filter_type, PASS_FILTER, BLOCK_FILTER, FLOW_CONTROL_FILTER.
  split; [|split].
  - intros [-> | ->]; [done|]. by destruct mask.
  - intros [m ->] [q ->] Hft. unfold startMessageFilter.
    unfold PASS_FILTER, BLOCK_FILTER, FLOW_CONTROL_FILTER.
    destruct (filterType =? 1) eqn:E1; [lia|].
    destruct (filterType =? 2) eqn:E2; [lia|].
    destruct (filterType =? 3) eqn:E3; [lia|]. reflexivity.
  - intros [m ->] [q ->]. split; reflexivity.
Qed.

(** A flow-control filter without flow-control message on channel 11000
    gets id 12000; type 4 and a null mask are refused. *)
Lemma startMessageFilter_validation_witness :
  startMessageFilter 11000 FLOW_CONTROL_FILTER (Some 1%positive)
                     (Some 2%positive) None initial = (12000, initial) /\
  fst (startMessageFilter 11000 4 (Some 1%positive) (Some 2%positive) None initial)
  = ERR_INVALID_IOCTL_VALUE /\
  fst (startMessageFilter 11000 PASS_FILTER None (Some 2%positive) None initial)
  = ERR_NULL_PARAMETER.
Proof.
  destruct (startMessageFilter_validation initial 11000 4
              (Some 1%positive) (Some 2%positive) None) as (_ & Hty & Hfc).
  destruct (startMessageFilter_validation initial 11000 PASS_FILTER
              None (Some 2%positive) None) as (Hnull & _ & _).
  split; [|split].
  - destruct Hfc as [-> _]; [by eexists..|]. reflexivity.
  - rewrite Hty; [reflexivity|by eexists..|].
    unfold is_filter_type, PASS_FILTER, BLOCK_FILTER, FLOW_CONTROL_FILTER. lia.
  - rewrite Hnull; [reflexivity|by left].
Defined.

End JniTheory.

(** * Properties of [j2534_native.cpp] *)
Module NativeTheory.
Import Native.

(** ** Integer conversions across the boundary *)

Lemma to_ulong_small (z : Z) : is_ulong z -> to_ulong z = z.
Proof. unfold is_ulong, to_ulong. intros Hz. by apply Z.mod_small. Qed.

(** [jint -> unsigned long -> jint] gives the value back. *)
Lemma to_jint_to_ulong (z : Z) : is_jint z -> to_jint (to_ulong z) = z.
Proof.
  unfold is_jint, to_jint, to_ulong, wrap_signed, ULONG_BITS. intros Hz.
  rewrite Zplus_mod_idemp_l. rewrite Z.mod_small; lia.
Qed.

(** [jlong -> unsigned long -> jlong] gives the low 32 bits. *)
Lemma to_jlong_to_ulong (z : Z) : to_jlong (to_ulong z) = z mod 2 ^ 32.
Proof.
  unfold to_jlong, to_ulong, wrap_signed, ULONG_BITS.
  pose proof (Z.mod_pos_bound z (2 ^ 32)).
  rewrite (Z.mod_small (z mod 2 ^ 32 + 2 ^ (64 - 1))); lia.
Qed.

(** ** The marshaller *)

Lemma memcpy_length (dst src : list byte) (n : nat) :
  (n <= length src)%nat -> (n <= length dst)%nat ->
  length (memcpy dst src n) = length dst.
Proof.
  intros Hs Hd. unfold memcpy.
  rewrite length_app, length_take, length_drop. lia.
Qed.

Lemma convert_java_message_to_native_data
  (m : J2534Message) (buf : PASSTHRU_MSG) (payload : list byte) :
  data m = Some payload ->
  exists n : PASSTHRU_MSG,
    convert_java_message_to_native (Some m) (Some buf) = Some n /\
    Data n = take (copy_length payload) payload
             ++ drop (copy_length payload) (Data buf) /\
    DataSize n = to_ulong (dataSize m).
Proof.
  intros Hd. eexists. split; [reflexivity|]. simpl. by rewrite Hd.
Qed.

(** C7: a payload longer than 4128 bytes leaves exactly its first 4128
    bytes in the native buffer; a payload of at most 4128 bytes is copied
    whole to the front of the buffer, the bytes behind it staying as they
    were. *)
Theorem payload_copy_truncates
  (m : J2534Message) (buf : PASSTHRU_MSG) (payload : list byte) :
  data m = Some payload -> PASSTHRU_MSG_wf buf ->
  exists n : PASSTHRU_MSG,
    convert_java_message_to_native (Some m) (Some buf) = Some n /\
    PASSTHRU_MSG_wf n /\
    (Z.of_nat (length payload) > sizeof_Data ->
       Data n = take 4128 payload) /\
    (Z.of_nat (length payload) <= sizeof_Data ->
       take (length payload) (Data n) = payload /\
       drop (length payload) (Data n) = drop (length payload) (Data buf)).
Proof.
  unfold PASSTHRU_MSG_wf, sizeof_Data. intros Hd Hwf.
  destruct (convert_java_message_to_native_data m buf payload Hd)
    as (n & Hn & HData & _).
  exists n. split; [done|]. rewrite HData. unfold copy_length, sizeof_Data.
  destruct (Z.gtb_spec (Z.of_nat (length payload)) 4128) as [Hgt|Hle].
  - change (Z.to_nat 4128) with 4128%nat in *.
    split; [|split; [|lia]].
    + rewrite length_app, length_take, length_drop. lia.
    + intros _. rewrite (drop_ge (Data buf)) by lia. by rewrite app_nil_r.
  - rewrite Nat2Z.id. rewrite firstn_all.
    split; [|split; [lia|]].
    + rewrite length_app, length_drop. lia.
    + intros _. split.
      * by rewrite take_app_length.
      * by rewrite drop_app_length.
Qed.

(** Of 4130 bytes, 4128 times [x01] then [x02; x03], the buffer keeps the
    4128 first. *)
Lemma payload_copy_truncates_witness :
  exists n : PASSTHRU_MSG,
    convert_java_message_to_native
      (Some (mkJavaMsg 6 0 0 0 4130 0 (Some (replicate 4128 x01 ++ [x02; x03]))))
      (Some (mkNativeMsg 0 0 0 0 0 0 (replicate 4128 x00))) = Some n /\
    Data n = replicate 4128 x01.
Proof.
  destruct (payload_copy_truncates
              (mkJavaMsg 6 0 0 0 4130 0 (Some (replicate 4128 x01 ++ [x02; x03])))
              (mkNativeMsg 0 0 0 0 0 0 (replicate 4128 x00))
              (replicate 4128 x01 ++ [x02; x03]))
    as (n & Hn & _ & Hlong & _); [reflexivity|reflexivity|].
  exists n. split; [exact Hn|].
  rewrite Hlong; [|vm_compute; reflexivity].
  vm_compute. reflexivity.
Defined.

(** The six parameters the looked-up descriptor declares. *)
Lemma constructor_descriptor_parameters :
  Descriptor.descriptor_parameters constructor_descriptor
  = Some [Descriptor.TInt; Descriptor.TInt; Descriptor.TLong;
          Descriptor.TInt; Descriptor.TInt;
          Descriptor.TArray Descriptor.TByte].
Proof. reflexivity. Qed.

(** C3, where the code departs from it: a message whose payload has at most
    4128 bytes and whose [dataSize] is the payload length is encoded, and
    on the way back the decoder returns null unless the class has a
    constructor of descriptor [(IIJII[B)V]; when it has one, the decoder
    calls it with seven arguments (the six header values, the timestamp
    reduced to 32 bits, and the payload) although the descriptor declares
    six parameters, so the argument types do not match the parameter types
    from the third on. *)
Theorem round_trip_constructor_mismatch
  (env : JNIEnv) (m : J2534Message) (buf : PASSTHRU_MSG) (payload : list byte) :
  FindClass_ok env = true -> NewByteArray_ok env = true ->
  data m = Some payload ->
  Z.of_nat (length payload) <= sizeof_Data ->
  dataSize m = Z.of_nat (length payload) ->
  is_jint (protocolId m) -> is_jint (rxStatus m) -> is_jint (txFlags m) ->
  is_jint (extraDataIndex m) ->
  let args := [JInt (protocolId m); JInt (rxStatus m); JInt (txFlags m);
               JLong (timestamp m mod 2 ^ 32); JInt (dataSize m);
               JInt (extraDataIndex m); JByteArray (Some payload)] in
  (GetMethodID_ok env = false ->
   convert_native_message_to_java env
     (convert_java_message_to_native (Some m) (Some buf)) = Null) /\
  (GetMethodID_ok env = true ->
   convert_native_message_to_java env
     (convert_java_message_to_native (Some m) (Some buf))
   = NewObject constructor_descriptor args false) /\
  (jvalue_type <$> args)
  = [Descriptor.TInt; Descriptor.TInt; Descriptor.TInt; Descriptor.TLong;
     Descriptor.TInt; Descriptor.TInt; Descriptor.TArray Descriptor.TByte] /\
  Descriptor.descriptor_parameters constructor_descriptor
  <> Some (jvalue_type <$> args).
Proof.
  intros Hc Ha Hd Hlen Hsize Hp Hr Ht He args.
  split; [|split; [|split; [reflexivity|discriminate]]].
  - intros Hk. unfold convert_native_message_to_java; simpl.
    by rewrite Hc, Hk.
  - intros Hk. subst args.
    destruct m as [pid rx tx ts dsz edi dat]; simpl in *. subst dat dsz.
    unfold sizeof_Data in Hlen.
    assert (Hl32 : is_jint (Z.of_nat (length payload)))
      by (unfold is_jint; lia).
    assert (Hu32 : is_ulong (Z.of_nat (length payload)))
      by (unfold is_ulong, ULONG_BITS; lia).
    unfold convert_native_message_to_java; simpl.
    rewrite Hc, Hk, Ha; simpl.
    rewrite !to_jint_to_ulong by done.
    rewrite to_jlong_to_ulong.
    rewrite (to_ulong_small _ Hu32).
    destruct (Z.ltb_spec (Z.of_nat (length payload)) 0) as [?|_]; [lia|].
    unfold sizeof_Data.
    destruct (Z.gtb_spec (Z.of_nat (length payload)) 4128) as [?|_]; [lia|].
    rewrite Nat2Z.id.
    destruct (Z.gtb_spec (Z.of_nat (length payload)) 0) as [Hpos|Hzero].
    + do 4 f_equal. unfold memcpy.
      rewrite firstn_all, take_app_length.
      rewrite drop_ge by (rewrite length_replicate; lia).
      by rewrite app_nil_r.
    + assert (payload = []) as -> by (destruct payload; [done|simpl in *; lia]).
      reflexivity.
Qed.

(** The three-byte ISO15765 message [02 10 03]: with the six-parameter
    constructor present, the decoder calls it with seven arguments. *)
Lemma round_trip_constructor_mismatch_witness :
  convert_native_message_to_java (mkEnv true true true)
    (convert_java_message_to_native
       (Some (mkJavaMsg 6 0 0 0 3 0 (Some [x02; x10; x03])))
       (Some (mkNativeMsg 0 0 0 0 0 0 (replicate 4128 x00))))
  = NewObject "(IIJII[B)V"
      [JInt 6; JInt 0; JInt 0; JLong 0; JInt 3; JInt 0;
       JByteArray (Some [x02; x10; x03])] false /\
  convert_native_message_to_java (mkEnv true false true)
    (convert_java_message_to_native
       (Some (mkJavaMsg 6 0 0 0 3 0 (Some [x02; x10; x03])))
       (Some (mkNativeMsg 0 0 0 0 0 0 (replicate 4128 x00))))
  = Null.
Proof.
  split.
  - destruct (round_trip_constructor_mismatch (mkEnv true true true)
                (mkJavaMsg 6 0 0 0 3 0 (Some [x02; x10; x03]))
                (mkNativeMsg 0 0 0 0 0 0 (replicate 4128 x00))
                [x02; x10; x03]) as (_ & Hcall & _);
      [reflexivity | reflexivity | reflexivity
      | unfold sizeof_Data; simpl; lia | reflexivity
      | unfold is_jint; simpl; lia .. | ].
    apply Hcall. reflexivity.
  - destruct (round_trip_constructor_mismatch (mkEnv true false true)
                (mkJavaMsg 6 0 0 0 3 0 (Some [x02; x10; x03]))
                (mkNativeMsg 0 0 0 0 0 0 (replicate 4128 x00))
                [x02; x10; x03]) as (Hnull & _);
      [reflexivity | reflexivity | reflexivity
      | unfold sizeof_Data; simpl; lia | reflexivity
      | unfold is_jint; simpl; lia .. | ].
    apply Hnull. reflexivity.
Defined.

(** ** The forwarded calls *)

(** [nativePassThruConnect] hands every protocol id to a bound driver: the
    range check of the wrapper's [connect] has no counterpart here. *)
Lemma nativePassThruConnect_forwards
  (driver : list DriverCall -> DriverCall -> Z * Z) (p : Process)
  (device_id protocol_id flags baud_rate : Z) :
  bound p PassThruConnect ->
  driver_calls (snd (nativePassThruConnect driver device_id protocol_id
                                           flags baud_rate p))
  = driver_calls p ++ [DrvConnect (to_ulong device_id) (to_ulong protocol_id)
                                  (to_ulong flags) (to_ulong baud_rate)].
Proof.
  intros (a & table & Hlib & Hheap & [f Hf]).
  unfold nativePassThruConnect, bind, unbound. rewrite Hlib, Hheap, Hf. simpl.
  by case_match.
Qed.

(** Unbound, it reports [ERR_DEVICE_NOT_CONNECTED] and calls nothing. *)
Lemma nativePassThruConnect_unbound
  (driver : list DriverCall -> DriverCall -> Z * Z) (p : Process)
  (device_id protocol_id flags baud_rate : Z) :
  g_j2534_lib p = None ->
  nativePassThruConnect driver device_id protocol_id flags baud_rate p =
  (-1, mkProcess (images p) (heap p) None ERR_DEVICE_NOT_CONNECTED
                 (driver_calls p)).
Proof.
  intros Hlib. unfold nativePassThruConnect, bind, unbound. rewrite Hlib.
  simpl. by rewrite Hlib.
Qed.

(** ** The loader *)

Lemma process_eta (p : Process) :
  mkProcess (images p) (heap p) (g_j2534_lib p) (g_last_error p)
            (driver_calls p) = p.
Proof. by destruct p. Qed.

Lemma release_head (h : HMODULE) (l : list HMODULE) : release h (h :: l) = l.
Proof. simpl. by rewrite Z.eqb_refl. Qed.

Section LoaderTheory.

Variable LoadLibraryA_result : string -> option HMODULE.
Variable GetProcAddress : HMODULE -> string -> option FARPROC.
Variable malloc_result : gmap Z J2534_LIBRARY -> option Z.

(** The allocator hands out an address that is not in use. *)
Hypothesis malloc_fresh :
  forall (live : gmap Z J2534_LIBRARY) (a : Z),
    malloc_result live = Some a -> live !! a = None.

Abbreviation load := (load_j2534_library LoadLibraryA_result GetProcAddress
                                         malloc_result).
Abbreviation resolved_table := (Native.resolved_table GetProcAddress).
Abbreviation mandatory_missing := (Native.mandatory_missing GetProcAddress).
Abbreviation mandatory_test := (Native.mandatory_test GetProcAddress).

Lemma mandatory_test_spec (h : HMODULE) :
  mandatory_test h = true <-> mandatory_missing h.
Proof.
  unfold Native.mandatory_test, Native.mandatory_missing.
  destruct (GetProcAddress h "PassThruOpen"),
           (GetProcAddress h "PassThruClose"),
           (GetProcAddress h "PassThruConnect"),
           (GetProcAddress h "PassThruDisconnect"); simpl;
    split; intuition congruence.
Qed.

(** The four outcomes of a load. *)
Lemma load_cases (path : string) (p : Process) :
  load path p =
  match LoadLibraryA_result path with
  | None => (None, p)
  | Some h =>
      match malloc_result (heap p) with
      | None => (None, p)
      | Some a =>
          if mandatory_test h then (None, p)
          else (Some a,
                mkProcess (h :: images p) (<[a := resolved_table h]> (heap p))
                          (g_j2534_lib p) (g_last_error p) (driver_calls p))
      end
  end.
Proof using malloc_fresh.
  unfold load_j2534_library, LoadLibraryA, bind.
  destruct (LoadLibraryA_result path) as [h|]; [|done]. simpl.
  destruct (malloc_result (heap p)) as [a|] eqn:Ha; simpl.
  - fold (Native.resolved_table GetProcAddress h).
    fold (Native.mandatory_test GetProcAddress h).
    destruct (mandatory_test h); simpl; [|done].
    rewrite Z.eqb_refl. rewrite delete_insert_id by by apply malloc_fresh.
    by rewrite process_eta.
  - rewrite Z.eqb_refl. by rewrite process_eta.
Qed.

(** C6: the load resolves the twelve entry points; if one of the four
    mandatory ones is missing it returns null and the process is as before
    (the image released, the table freed), as after every failed load; if
    the four are there the load returns the table, whatever the other eight
    resolve to; and unloading that table gives back the image and the
    block. *)
Theorem load_requires_mandatory_entry_points (path : string) (p : Process) :
  (forall h : HMODULE,
     LoadLibraryA_result path = Some h -> mandatory_missing h ->
     load path p = (None, p)) /\
  (fst (load path p) = None -> snd (load path p) = p) /\
  (forall (h : HMODULE) (a : Z),
     LoadLibraryA_result path = Some h -> malloc_result (heap p) = Some a ->
     ~ mandatory_missing h ->
     load path p =
     (Some a,
      mkProcess (h :: images p) (<[a := resolved_table h]> (heap p))
                (g_j2534_lib p) (g_last_error p) (driver_calls p)) /\
     snd (unload_j2534_library (Some a) (snd (load path p))) = p).
Proof using malloc_fresh.
  rewrite load_cases. split; [|split].
  - intros h -> Hmiss. apply mandatory_test_spec in Hmiss. rewrite Hmiss.
    by destruct (malloc_result (heap p)).
  - destruct (LoadLibraryA_result path) as [h|]; [|done].
    destruct (malloc_result (heap p)) as [a|]; [|done].
    by destruct (mandatory_test h).
  - intros h a -> Ha Hok. rewrite Ha.
    destruct (mandatory_test h) eqn:Ht;
      [by apply mandatory_test_spec in Ht|].
    split; [done|]. unfold unload_j2534_library, bind; simpl.
    rewrite lookup_insert_eq. simpl.
    rewrite Z.eqb_refl. rewrite delete_insert_id by by apply malloc_fresh.
    by rewrite process_eta.
Qed.

End LoaderTheory.

Lemma bump_allocator_fresh (live : gmap Z J2534_LIBRARY) (a : Z) :
  bump_allocator live = Some a -> live !! a = None.
Proof.
  unfold bump_allocator. destruct (live !! 4096) eqn:E; [done|].
  by intros [= <-].
Qed.

(** The image with only the four mandatory entry points loads; the one
    without [PassThruDisconnect] does not, and leaves the process as it
    was. *)
Lemma load_requires_mandatory_entry_points_witness :
  fst (load_j2534_library (fun _ => Some 7) minimal_driver bump_allocator
                          "vendor.dll" initial) = Some 4096 /\
  load_j2534_library (fun _ => Some 7) broken_driver bump_allocator
                     "vendor.dll" initial = (None, initial).
Proof.
  destruct (load_requires_mandatory_entry_points
              (fun _ => Some 7) minimal_driver bump_allocator
              bump_allocator_fresh "vendor.dll" initial) as (_ & _ & Hgood).
  destruct (load_requires_mandatory_entry_points
              (fun _ => Some 7) broken_driver bump_allocator
              bump_allocator_fresh "vendor.dll" initial) as (Hbad & _ & _).
  split.
  - destruct (Hgood 7 4096) as [-> _]; [reflexivity|reflexivity| |reflexivity].
    unfold Native.mandatory_missing. vm_compute.
    intros [H|[H|[H|H]]]; discriminate H.
  - apply (Hbad 7); [reflexivity|].
    unfold Native.mandatory_missing. do 3 right. reflexivity.
Defined.

End NativeTheory.

(** * Further properties of [j2534_jni.cpp] *)
Module JniMore.
Import Jni JniTheory.

(** ** [initialize] and [cleanup] *)

(** X1. In every state a session can reach, [initialize] and [cleanup] both
    bring the globals back to their values at load time: no device
    registered, all 32 slots zeroed, no last error. *)
Theorem initialize_cleanup_reset (w : World) :
  reachable w ->
  initialize w = (true, initial) /\ cleanup w = (tt, initial).
Proof.
  intros Hr. unfold initialize, cleanup, initial.
  by rewrite (reachable_no_driver_call w Hr).
Qed.

(** After a scan and a refused [connect], [cleanup] gives the initial
    world. *)
Lemma initialize_cleanup_reset_witness :
  snd (cleanup (snd (run [CallScanForDevices; CallConnect 1000 0 0 0] initial)))
  = initial.
Proof.
  assert (Hr : reachable
                 (snd (step (CallConnect 1000 0 0 0)
                         (snd (step CallScanForDevices initial)))))
    by (do 2 apply reachable_step; apply reachable_initial).
  destruct (initialize_cleanup_reset _ Hr) as [_ Hc].
  exact (f_equal snd Hc).
Defined.

(** ** The last error *)

Lemma writeMessages_loop_last_error
  (msgs : list (option J2534MessageStruct)) (n : nat) :
  forall (i : Z) (w : World),
    g_last_error (snd (writeMessages_loop n i msgs w)) = g_last_error w \/
    g_last_error (snd (writeMessages_loop n i msgs w))
    = "Invalid protocol ID in message".
Proof.
  induction n as [|n IH]; intros i w; simpl; [by left|].
  destruct (GetObjectArrayElement msgs i) as [m|]; [|apply IH].
  case_match; [by right|apply IH].
Qed.

Lemma scanForDevices_last_error (w : World) :
  g_last_error (snd (scanForDevices w)) = g_last_error w.
Proof.
  unfold scanForDevices; simpl. unfold bind, scan_iteration.
  repeat (case_match; simplify_eq/=); done.
Qed.

(** A call leaves the last error alone, or clears it, or sets it to one of
    the eight texts. *)
Lemma step_last_error (c : Call) (w : World) :
  g_last_error (snd (step c w)) = g_last_error w \/
  g_last_error (snd (step c w)) ∈ "" :: error_messages.
Proof.
  unfold error_messages.
  destruct c; simpl; try (by left); try (right; set_solver).
  - left. unfold fmapM, bind. pose proof (scanForDevices_last_error w).
    by destruct (scanForDevices w).
  - unfold connect; by_cases; (by left) || (right; set_solver).
  - unfold readMessages; by_cases; (by left) || (right; set_solver).
  - unfold fmapM, bind, writeMessages.
    destruct messages as [msgs|]; [|right; set_solver].
    pose proof (writeMessages_loop_last_error msgs (Z.to_nat numMessages) 0 w)
      as [H|H]; destruct (writeMessages_loop _ _ _ _); simpl in *;
      [by left|right; rewrite H; set_solver].
  - unfold startPeriodicMessage; by_cases; (by left) || (right; set_solver).
  - unfold startMessageFilter; by_cases; (by left) || (right; set_solver).
  - unfold setProgrammingVoltage; by_cases; (by left) || (right; set_solver).
  - unfold ioctl; by_cases; (by left) || (right; set_solver).
Qed.

(** X2. In every reachable state the last error is empty or one of the eight
    texts of the file, so it always fits its 512-byte buffer with the
    terminator. *)
Theorem last_error_vocabulary (w : World) :
  reachable w ->
  g_last_error w ∈ "" :: error_messages /\
  (String.length (g_last_error w) < 512)%nat.
Proof.
  intros Hr.
  assert (Hin : g_last_error w ∈ "" :: error_messages).
  { induction Hr as [|w c _ IH]; [set_solver|].
    destruct (step_last_error c w) as [-> | H]; done. }
  split; [done|].
  unfold error_messages in Hin. set_unfold.
  repeat (destruct Hin as [-> | Hin]; [simpl; lia|]). done.
Qed.

(** After a refused [ioctl] the last error is [Unsupported IOCTL operation]. *)
Lemma last_error_vocabulary_witness :
  g_last_error (snd (step (CallIoctl 11000 9 0 0) initial))
  ∈ "" :: error_messages.
Proof.
  apply (last_error_vocabulary (snd (step (CallIoctl 11000 9 0 0) initial))).
  apply reachable_step, reachable_initial.
Defined.

(** X3. The last error outlives successful calls: after a [connect] refused for
    its protocol id, a successful [connect], a [disconnect] and a
    [stopMessageFilter] leave [getLastError] answering
    [Invalid protocol ID]. *)
Theorem last_error_survives_success
  (w : World) (d p f b d' p' f' b' h h' fid : Z) :
  ~ in_protocol_range p -> in_protocol_range p' ->
  fst (run [CallConnect d p f b; CallConnect d' p' f' b'; CallDisconnect h;
            CallStopMessageFilter h' fid; CallGetLastError] w)
  = [VLong ERR_INVALID_PROTOCOL_ID; VLong (to_jlong (d' + 10000));
     VLong STATUS_NOERROR; VLong STATUS_NOERROR;
     VString "Invalid protocol ID"].
Proof.
  intros Hbad Hgood.
  apply protocol_test_true in Hbad. apply protocol_test_false in Hgood.
  simpl. unfold fmapM, bind, connect. rewrite Hbad; simpl.
  unfold bind. rewrite Hgood. reflexivity.
Qed.

Lemma last_error_survives_success_witness :
  last (fst (run [CallConnect 1000 99 0 0; CallConnect 1000 6 0 500000;
                  CallDisconnect 11000; CallStopMessageFilter 11000 12000;
                  CallGetLastError] initial))
  = Some (VString "Invalid protocol ID").
Proof.
  rewrite (last_error_survives_success initial 1000 99 0 0 1000 6 0 500000
             11000 11000 12000);
    [reflexivity|unfold in_protocol_range; lia|unfold in_protocol_range; lia].
Defined.

(** ** [setProgrammingVoltage] *)

(** X4. A pin from 1 to 16 is accepted with every voltage and changes nothing;
    any other pin gives [ERR_PIN_INVALID] and records [Invalid pin number],
    the registry staying as it is. *)
Theorem setProgrammingVoltage_status (w : World) (handle pinNumber voltage : Z) :
  setProgrammingVoltage handle pinNumber voltage w =
  if decide (1 <= pinNumber <= 16) then (STATUS_NOERROR, w)
  else (ERR_PIN_INVALID,
        mkWorld (g_devices w) (g_device_count w) "Invalid pin number"
                (driver_calls w)).
Proof.
  unfold setProgrammingVoltage. case_decide as Hpin.
  - destruct ((pinNumber <? 1) || (pinNumber >? 16)) eqn:E; [|done].
    apply orb_true_iff in E. lia.
  - destruct ((pinNumber <? 1) || (pinNumber >? 16)) eqn:E; [done|].
    apply orb_false_iff in E. lia.
Qed.

(** ** [readMessages] *)





(** ** [writeMessages]: what lies behind [numMessages] *)

Lemma writeMessages_loop_ext (n : nat) :
  forall (i : nat) (msgs msgs' : list (option J2534MessageStruct)) (w : World),
    (forall j : nat, (i <= j < i + n)%nat -> msgs !! j = msgs' !! j) ->
    writeMessages_loop n (Z.of_nat i) msgs w
    = writeMessages_loop n (Z.of_nat i) msgs' w.
Proof.
  induction n as [|n IH]; intros i msgs msgs' w Hagree; simpl; [done|].
  replace (Z.of_nat i + 1) with (Z.of_nat (S i)) by lia.
  assert (He : GetObjectArrayElement msgs (Z.of_nat i)
               = GetObjectArrayElement msgs' (Z.of_nat i)).
  { unfold GetObjectArrayElement. case_match; [done|].
    rewrite Nat2Z.id, (Hagree i) by lia. done. }
  rewrite <- He.
  destruct (GetObjectArrayElement msgs (Z.of_nat i)) as [m|].
  - case_match; [done|]. apply IH. intros j Hj. apply Hagree. lia.
  - apply IH. intros j Hj. apply Hagree. lia.
Qed.

(** X6. [writeMessages] looks at the first [numMessages] elements only: the
    outcome is that of the array cut to that length, so an invalid message
    behind them is not noticed, and with [numMessages <= 0] every non-null
    array is accepted without a change of state. *)
Theorem writeMessages_ignores_tail
  (w : World) (handle numMessages timeout : Z)
  (msgs : list (option J2534MessageStruct)) :
  writeMessages handle (Some msgs) numMessages timeout w
  = writeMessages handle (Some (take (Z.to_nat numMessages) msgs))
                  numMessages timeout w /\
  (numMessages <= 0 ->
   writeMessages handle (Some msgs) numMessages timeout w = (STATUS_NOERROR, w)).
Proof.
  split.
  - unfold writeMessages. apply (writeMessages_loop_ext _ 0).
    intros j Hj. by rewrite lookup_take_lt by lia.
  - intros Hn. unfold writeMessages.
    replace (Z.to_nat numMessages) with 0%nat by lia. reflexivity.
Qed.

(** A message with protocol id 99 in second place goes unnoticed when
    [numMessages] is 1. *)
Lemma writeMessages_ignores_tail_witness :
  writeMessages 11000
    (Some [Some (mkMessage 6 0 0 0 None 0); Some (mkMessage 99 0 0 0 None 0)])
    1 1000 initial = (STATUS_NOERROR, initial) /\
  writeMessages 11000 (Some [Some (mkMessage 99 0 0 0 None 0)]) 0 1000 initial
  = (STATUS_NOERROR, initial).
Proof.
  split.
  - destruct (writeMessages_ignores_tail initial 11000 1 1000
                [Some (mkMessage 6 0 0 0 None 0);
                 Some (mkMessage 99 0 0 0 None 0)]) as [-> _].
    reflexivity.
  - apply writeMessages_ignores_tail. lia.
Defined.

(** ** [scanForDevices]: what it returns and what it stores *)

Lemma take_insert_two {A} (l : list A) (c : nat) (x y : A) :
  (S c < length l)%nat ->
  take (S (S c)) (<[S c := y]> (<[c := x]> l)) = take c l ++ [x; y].
Proof.
  revert l. induction c as [|c IH]; intros l Hlen.
  - destruct l as [|a [|a' l]]; simpl in *; try lia. by rewrite take_0.
  - destruct l as [|a l]; simpl in *; [lia|].
    f_equal. apply IH. lia.
Qed.

(** X7. In every reachable state a scan returns exactly the devices it
    registers: the devices in use afterwards are those in use before,
    in the same slots, followed by the returned ones. *)
Theorem scanForDevices_returns_what_it_registers (w : World) :
  reachable w ->
  active_devices (snd (scanForDevices w))
  = active_devices w ++ fst (scanForDevices w).
Proof.
  intros Hr. destruct (reachable_ok w Hr) as [H1 H2 H3 H4].
  destruct (Z_lt_le_dec (g_device_count w) 32) as [Hlt|Hge].
  - pose proof (even_lt_32 _ H3 Hlt) as Hroom.
    rewrite scanForDevices_room by done. unfold active_devices; simpl.
    replace (Z.to_nat (g_device_count w + 1 + 1))
      with (S (S (Z.to_nat (g_device_count w)))) by lia.
    replace (Z.to_nat (g_device_count w + 1))
      with (S (Z.to_nat (g_device_count w))) by lia.
    apply take_insert_two. lia.
  - rewrite scanForDevices_full by done. simpl. by rewrite app_nil_r.
Qed.

(** The second scan leaves the two devices of the first in slots 0 and 1
    and adds its own two behind them. *)
Lemma scanForDevices_returns_what_it_registers_witness :
  active_devices (snd (scanForDevices (snd (step CallScanForDevices initial))))
  = active_devices (snd (step CallScanForDevices initial))
    ++ [scanned_device 0; scanned_device 1].
Proof.
  rewrite (scanForDevices_returns_what_it_registers
             (snd (step CallScanForDevices initial)));
    [reflexivity|apply reachable_step, reachable_initial].
Defined.

Lemma step_scan (w : World) :
  snd (step CallScanForDevices w) = snd (scanForDevices w).
Proof. simpl. unfold fmapM, bind. by destruct (scanForDevices w). Qed.

Lemma scans_reachable (k : nat) : reachable (scans k initial).
Proof.
  induction k as [|k IH]; [apply reachable_initial|].
  unfold scans in *; simpl. rewrite <- step_scan. by apply reachable_step.
Qed.

(** X8. From the initial state, [k] scans register [min (2k, 32)] devices: two
    per scan for sixteen scans, nothing after that. *)
Theorem scans_device_count (k : nat) :
  g_device_count (scans k initial) = Z.min (2 * Z.of_nat k) 32.
Proof.
  induction k as [|k IH]; [reflexivity|].
  pose proof (reachable_ok _ (scans_reachable k)) as [H1 H2 H3 H4].
  change (scans (S k) initial) with (snd (scanForDevices (scans k initial))).
  destruct (Z_lt_le_dec (g_device_count (scans k initial)) 32) as [Hlt|Hge].
  - pose proof (even_lt_32 _ H3 Hlt) as Hroom.
    rewrite scanForDevices_room by done. simpl. lia.
  - rewrite scanForDevices_full by done. simpl. lia.
Qed.

(** ** [connect] then [startMessageFilter] *)

(** X9. On the channel that [connect] returns for device [d], every filter,
    whatever its type, mask and pattern, gets the id [d + 11000]: two
    filters started on one channel share their id. *)
Theorem filter_ids_on_a_channel_coincide
  (w : World) (d p f b t1 t2 : Z) (m1 p1 m2 p2 : positive) (fc1 fc2 : jobject) :
  in_protocol_range p -> is_filter_type t1 -> is_filter_type t2 ->
  is_jlong d -> is_jlong (d + 11000) ->
  fst (startMessageFilter (fst (connect d p f b w)) t1 (Some m1) (Some p1) fc1 w)
  = d + 11000 /\
  fst (startMessageFilter (fst (connect d p f b w)) t2 (Some m2) (Some p2) fc2 w)
  = d + 11000.
Proof.
  unfold is_filter_type, PASS_FILTER, BLOCK_FILTER, FLOW_CONTROL_FILTER, is_jlong.
  intros Hp Ht1 Ht2 Hd Hd'. rewrite connect_valid by done. simpl.
  rewrite (to_jlong_small (d + 10000)) by (unfold is_jlong; lia).
  unfold startMessageFilter, PASS_FILTER, BLOCK_FILTER, FLOW_CONTROL_FILTER.
  split.
  - destruct Ht1 as [-> | [-> | ->]]; simpl;
      rewrite to_jlong_small by (unfold is_jlong; lia); lia.
  - destruct Ht2 as [-> | [-> | ->]]; simpl;
      rewrite to_jlong_small by (unfold is_jlong; lia); lia.
Qed.

(** A pass filter and a block filter on the channel of device 1000 both get
    id 12000. *)
Lemma filter_ids_on_a_channel_coincide_witness :
  fst (startMessageFilter 11000 PASS_FILTER (Some 1%positive) (Some 2%positive)
                          None initial) = 12000 /\
  fst (startMessageFilter 11000 BLOCK_FILTER (Some 3%positive) (Some 4%positive)
                          None initial) = 12000.
Proof.
  apply (filter_ids_on_a_channel_coincide initial 1000 6 0 500000
           PASS_FILTER BLOCK_FILTER 1 2 3 4 None None);
    unfold in_protocol_range, is_filter_type, is_jlong; try lia; auto.
Defined.

End JniMore.

(** * Further properties of [j2534_native.cpp] *)
Module NativeMore.
Import Native NativeTheory.

Lemma to_jint_of_to_ulong (z : Z) : to_jint (to_ulong z) = to_jint z.
Proof.
  unfold to_jint, to_ulong, wrap_signed, ULONG_BITS.
  by rewrite Zplus_mod_idemp_l.
Qed.

Lemma to_jint_small (z : Z) : is_jint z -> to_jint z = z.
Proof.
  unfold is_jint, to_jint, wrap_signed. intros Hz. rewrite Z.mod_small; lia.
Qed.

(** ** The forwarded calls without a driver *)

(** X10. With no driver bound, each of the four forwarded calls records
    [ERR_DEVICE_NOT_CONNECTED], calls nothing, and returns -1 ([open],
    [connect]) or the error code ([close], [disconnect]). *)
Theorem forwarded_calls_unbound
  (driver : list DriverCall -> DriverCall -> Z * Z) (p : Process)
  (name : option string) (device_id protocol_id flags baud_rate channel_id : Z) :
  g_j2534_lib p = None ->
  let failed := mkProcess (images p) (heap p) None ERR_DEVICE_NOT_CONNECTED
                          (driver_calls p) in
  nativePassThruOpen driver name p = (-1, failed) /\
  nativePassThruClose driver device_id p = (ERR_DEVICE_NOT_CONNECTED, failed) /\
  nativePassThruConnect driver device_id protocol_id flags baud_rate p
  = (-1, failed) /\
  nativePassThruDisconnect driver channel_id p
  = (ERR_DEVICE_NOT_CONNECTED, failed).
Proof.
  intros Hlib.
  unfold nativePassThruOpen, nativePassThruClose, nativePassThruConnect,
    nativePassThruDisconnect, bind, unbound.
  rewrite Hlib; simpl. by rewrite Hlib.
Qed.

(** Before any driver is loaded, [nativePassThruOpen] returns -1. *)
Lemma forwarded_calls_unbound_witness :
  fst (nativePassThruOpen (fun _ _ => (0, 1)) None initial) = -1.
Proof.
  destruct (forwarded_calls_unbound (fun _ _ => (0, 1)) initial None 0 0 0 0 0)
    as [-> _]; reflexivity.
Defined.

(** ** The last status *)

(** X11. [nativeGetLastError], called right after [nativePassThruClose] or
    [nativePassThruDisconnect], returns what that call returned, bound or
    not. *)
Theorem nativeGetLastError_after_close
  (driver : list DriverCall -> DriverCall -> Z * Z) (p : Process)
  (device_id channel_id : Z) :
  fst (nativeGetLastError (snd (nativePassThruClose driver device_id p)))
  = fst (nativePassThruClose driver device_id p) /\
  fst (nativeGetLastError (snd (nativePassThruDisconnect driver channel_id p)))
  = fst (nativePassThruDisconnect driver channel_id p).
Proof.
  unfold nativePassThruClose, nativePassThruDisconnect, nativeGetLastError,
    bind, unbound, set_g_last_error, call_driver, ret.
  split; repeat case_match; simplify_eq/=; by rewrite ?to_jint_of_to_ulong.
Qed.

(** X12. Bound, [nativePassThruOpen] and [nativePassThruConnect] make one driver
    call each; they return -1 when the driver's status is not 0 and the
    driver's id, read as a [jint], when it is; the last status is the
    driver's, and [nativeGetLastError] returns it. *)
Theorem open_connect_results
  (driver : list DriverCall -> DriverCall -> Z * Z) (p : Process)
  (name : option string) (device_id protocol_id flags baud_rate : Z) :
  bound p PassThruOpen -> bound p PassThruConnect ->
  let o := DrvOpen name in
  let c := DrvConnect (to_ulong device_id) (to_ulong protocol_id)
                      (to_ulong flags) (to_ulong baud_rate) in
  nativePassThruOpen driver name p =
    (if fst (driver (driver_calls p) o) =? 0
     then to_jint (snd (driver (driver_calls p) o)) else -1,
     mkProcess (images p) (heap p) (g_j2534_lib p)
               (to_ulong (fst (driver (driver_calls p) o)))
               (driver_calls p ++ [o])) /\
  nativePassThruConnect driver device_id protocol_id flags baud_rate p =
    (if fst (driver (driver_calls p) c) =? 0
     then to_jint (snd (driver (driver_calls p) c)) else -1,
     mkProcess (images p) (heap p) (g_j2534_lib p)
               (to_ulong (fst (driver (driver_calls p) c)))
               (driver_calls p ++ [c])) /\
  fst (nativeGetLastError (snd (nativePassThruOpen driver name p)))
  = to_jint (fst (driver (driver_calls p) o)).
Proof.
  intros (a & t & Hlib & Hheap & [f Hf]) (a' & t' & Hlib' & Hheap' & [f' Hf']).
  simplify_eq.
  unfold nativePassThruOpen, nativePassThruConnect, nativeGetLastError,
    bind, unbound, call_driver.
  rewrite Hlib, Hheap, Hf, Hf'. simpl. rewrite ?Hlib.
  split; [by case_match|]. split; [by case_match|].
  case_match; simpl; by rewrite to_jint_of_to_ulong.
Qed.

(** A process with the minimal driver image bound at address 4096. *)
Lemma open_connect_results_witness :
  fst (nativePassThruOpen (fun _ _ => (0, 5)) None
         (mkProcess [7] {[4096 := resolved_table minimal_driver 7]}
                    (Some 4096) 0 [])) = 5.
Proof.
  destruct (open_connect_results (fun _ _ => (0, 5))
              (mkProcess [7] {[4096 := resolved_table minimal_driver 7]}
                         (Some 4096) 0 [])
              None 0 0 0 0) as [-> _];
    [| |reflexivity];
    exists 4096, (resolved_table minimal_driver 7);
    (split; [reflexivity|split; [reflexivity|by eexists]]).
Defined.

(** ** [nativeLoadLibrary] *)

Lemma two_blocks_fresh (live : gmap Z J2534_LIBRARY) (a : Z) :
  two_blocks live = Some a -> live !! a = None.
Proof.
  unfold two_blocks. destruct (live !! 4096) eqn:E1.
  - destruct (live !! 4097) eqn:E2; [done|]. by intros [= <-].
  - by intros [= <-].
Qed.

Section LoadLibrary.

Variable LoadLibraryA_result : string -> option HMODULE.
Variable GetProcAddress : HMODULE -> string -> option FARPROC.
Variable malloc_result : gmap Z J2534_LIBRARY -> option Z.

Hypothesis malloc_fresh :
  forall (live : gmap Z J2534_LIBRARY) (a : Z),
    malloc_result live = Some a -> live !! a = None.

Abbreviation load := (load_j2534_library LoadLibraryA_result GetProcAddress
                                         malloc_result).
Abbreviation nativeLoad := (nativeLoadLibrary LoadLibraryA_result GetProcAddress
                                              malloc_result).
Abbreviation table := (resolved_table GetProcAddress).
Abbreviation missing := (mandatory_missing GetProcAddress).

Lemma load_success (path : string) (p : Process) (h : HMODULE) (a : Z) :
  LoadLibraryA_result path = Some h -> malloc_result (heap p) = Some a ->
  ~ missing h ->
  load path p =
  (Some a, mkProcess (h :: images p) (<[a := table h]> (heap p))
                     (g_j2534_lib p) (g_last_error p) (driver_calls p)).
Proof using malloc_fresh.
  intros Hh Ha Hok. rewrite load_cases, Hh, Ha by done.
  destruct (mandatory_test GetProcAddress h) eqn:Ht; [|done].
  by apply mandatory_test_spec in Ht.
Qed.

Lemma load_failure (path : string) (p : Process) :
  fst (load path p) = None -> load path p = (None, p).
Proof using malloc_fresh.
  rewrite load_cases by done.
  destruct (LoadLibraryA_result path) as [h|]; [|done].
  destruct (malloc_result (heap p)) as [a|]; [|done].
  by destruct (mandatory_test GetProcAddress h).
Qed.

Lemma nativeLoad_success (path : string) (p : Process) (h : HMODULE) (a : Z) :
  LoadLibraryA_result path = Some h -> malloc_result (heap p) = Some a ->
  ~ missing h ->
  nativeLoad (Some path) p =
  (a, mkProcess (h :: images p) (<[a := table h]> (heap p)) (Some a)
                STATUS_NOERROR (driver_calls p)).
Proof using malloc_fresh.
  intros Hh Ha Hok. unfold nativeLoadLibrary, bind.
  by rewrite (load_success path p h a).
Qed.

(** X13. [nativeLoadLibrary] returns 0 with [ERR_NULL_PARAMETER] when the path
    string cannot be read, and 0 with [ERR_FAILED] when the load fails, in
    both cases keeping the images, the tables and the binding it had; when
    the load succeeds it returns the address of the new table, binds it and
    records [STATUS_NOERROR]. *)
Theorem nativeLoadLibrary_outcomes (path : string) (p : Process) :
  nativeLoad None p =
    (0, mkProcess (images p) (heap p) (g_j2534_lib p) ERR_NULL_PARAMETER
                  (driver_calls p)) /\
  (fst (load path p) = None ->
   nativeLoad (Some path) p =
     (0, mkProcess (images p) (heap p) (g_j2534_lib p) ERR_FAILED
                   (driver_calls p))) /\
  (forall (h : HMODULE) (a : Z),
     LoadLibraryA_result path = Some h -> malloc_result (heap p) = Some a ->
     ~ missing h ->
     nativeLoad (Some path) p =
       (a, mkProcess (h :: images p) (<[a := table h]> (heap p)) (Some a)
                     STATUS_NOERROR (driver_calls p))).
Proof using malloc_fresh.
  split; [reflexivity|]. split.
  - intros Hfail. unfold nativeLoadLibrary, bind.
    by rewrite (load_failure path p Hfail).
  - intros h a Hh Ha Hok. by apply nativeLoad_success.
Qed.

(** X14. A second successful [nativeLoadLibrary] binds the new table and leaves
    the first driver where it was: its image is still loaded and its table
    still allocated, with nothing pointing to it any more. *)
Theorem second_load_keeps_first
  (path1 path2 : string) (p : Process) (h1 h2 : HMODULE) (a1 a2 : Z) :
  LoadLibraryA_result path1 = Some h1 -> LoadLibraryA_result path2 = Some h2 ->
  ~ missing h1 -> ~ missing h2 ->
  malloc_result (heap p) = Some a1 ->
  malloc_result (<[a1 := table h1]> (heap p)) = Some a2 ->
  let p2 := snd (nativeLoad (Some path2) (snd (nativeLoad (Some path1) p))) in
  g_j2534_lib p2 = Some a2 /\
  images p2 = h2 :: h1 :: images p /\
  heap p2 !! a1 = Some (table h1) /\
  heap p2 !! a2 = Some (table h2) /\
  a1 <> a2.
Proof using malloc_fresh.
  intros Hh1 Hh2 Hok1 Hok2 Ha1 Ha2.
  rewrite (nativeLoad_success path1 p h1 a1) by done. cbn [snd].
  set (p1 := mkProcess _ _ _ _ _).
  rewrite (nativeLoad_success path2 p1 h2 a2) by done. simpl.
  assert (Hne : a1 <> a2).
  { intros ->. apply malloc_fresh in Ha2. by rewrite lookup_insert_eq in Ha2. }
  repeat split; try done.
  - rewrite lookup_insert_ne by done. by rewrite lookup_insert_eq.
  - by rewrite lookup_insert_eq.
Qed.

(** X15. After a successful [nativeLoadLibrary] the four mandatory entry points
    are bound, so [nativePassThruOpen], [Close], [Connect] and [Disconnect]
    each hand exactly one call to the driver, with their arguments reduced
    to 32 bits. *)
Theorem loaded_driver_receives_calls
  (driver : list DriverCall -> DriverCall -> Z * Z)
  (path : string) (p : Process) (h : HMODULE) (a : Z)
  (name : option string) (device_id protocol_id flags baud_rate channel_id : Z) :
  LoadLibraryA_result path = Some h -> malloc_result (heap p) = Some a ->
  ~ missing h ->
  let p1 := snd (nativeLoad (Some path) p) in
  driver_calls (snd (nativePassThruOpen driver name p1))
  = driver_calls p ++ [DrvOpen name] /\
  driver_calls (snd (nativePassThruClose driver device_id p1))
  = driver_calls p ++ [DrvClose (to_ulong device_id)] /\
  driver_calls (snd (nativePassThruConnect driver device_id protocol_id flags
                                           baud_rate p1))
  = driver_calls p ++ [DrvConnect (to_ulong device_id) (to_ulong protocol_id)
                                  (to_ulong flags) (to_ulong baud_rate)] /\
  driver_calls (snd (nativePassThruDisconnect driver channel_id p1))
  = driver_calls p ++ [DrvDisconnect (to_ulong channel_id)].
Proof using malloc_fresh.
  intros Hh Ha Hok.
  rewrite (nativeLoad_success path p h a) by done. simpl.
  assert (Ht : mandatory_test GetProcAddress h = false).
  { destruct (mandatory_test GetProcAddress h) eqn:Ht; [|done].
    by apply mandatory_test_spec in Ht. }
  unfold mandatory_test in Ht.
  unfold nativePassThruOpen, nativePassThruClose, nativePassThruConnect,
    nativePassThruDisconnect, bind, unbound, call_driver. simpl.
  rewrite lookup_insert_eq. simpl.
  destruct (GetProcAddress h "PassThruOpen"),
           (GetProcAddress h "PassThruClose"),
           (GetProcAddress h "PassThruConnect"),
           (GetProcAddress h "PassThruDisconnect"); simpl in Ht; try done.
  simpl. repeat split; by case_match.
Qed.

End LoadLibrary.

(** The minimal driver loads at 4096 and is bound. *)
Lemma nativeLoadLibrary_outcomes_witness :
  fst (nativeLoadLibrary (fun _ => Some 7) minimal_driver bump_allocator
                         (Some "vendor.dll") initial) = 4096 /\
  nativeLoadLibrary (fun _ => Some 7) broken_driver bump_allocator
                    (Some "vendor.dll") initial
  = (0, mkProcess [] ∅ None ERR_FAILED []).
Proof.
  destruct (nativeLoadLibrary_outcomes (fun _ => Some 7) minimal_driver
              bump_allocator bump_allocator_fresh "vendor.dll" initial)
    as (_ & _ & Hgood).
  destruct (nativeLoadLibrary_outcomes (fun _ => Some 7) broken_driver
              bump_allocator bump_allocator_fresh "vendor.dll" initial)
    as (_ & Hbad & _).
  split.
  - rewrite (Hgood 7 4096); [reflexivity|reflexivity|reflexivity|].
    unfold mandatory_missing. vm_compute.
    intros [H|[H|[H|H]]]; discriminate H.
  - rewrite Hbad; reflexivity.
Defined.

(** Loading the same image twice leaves it referenced twice. *)
Lemma second_load_keeps_first_witness :
  images (snd (nativeLoadLibrary (fun _ => Some 8) minimal_driver two_blocks
                 (Some "second.dll")
                 (snd (nativeLoadLibrary (fun _ => Some 8) minimal_driver
                         two_blocks (Some "first.dll") initial))))
  = [8; 8].
Proof.
  assert (Hok : ~ mandatory_missing minimal_driver 8).
  { unfold mandatory_missing. vm_compute.
    intros [H|[H|[H|H]]]; discriminate H. }
  destruct (second_load_keeps_first (fun _ => Some 8) minimal_driver two_blocks
              two_blocks_fresh "first.dll" "second.dll" initial 8 8 4096 4097)
    as (_ & -> & _); try reflexivity; exact Hok.
Defined.

(** Once the minimal driver is loaded, [nativePassThruConnect] with protocol
    id 99 reaches it. *)
Lemma loaded_driver_receives_calls_witness :
  driver_calls
    (snd (nativePassThruConnect (fun _ _ => (0, 1)) 1 99 0 500000
            (snd (nativeLoadLibrary (fun _ => Some 7) minimal_driver
                    bump_allocator (Some "vendor.dll") initial))))
  = [DrvConnect 1 99 0 500000].
Proof.
  destruct (loaded_driver_receives_calls (fun _ => Some 7) minimal_driver
              bump_allocator bump_allocator_fresh (fun _ _ => (0, 1))
              "vendor.dll" initial 7 4096 None 1 99 0 500000 0)
    as (_ & _ & -> & _); try reflexivity.
  unfold mandatory_missing. vm_compute.
  intros [H|[H|[H|H]]]; discriminate H.
Defined.

(** ** The marshaller beyond the claimed round trip *)

(** X16. [DataSize] is the Java [dataSize] field, not the number of bytes copied:
    a message whose [dataSize] exceeds 4128 is encoded with that size over a
    4128-byte buffer, and decoding the result reads past the buffer. *)
Theorem oversize_message_decodes_past_buffer
  (env : JNIEnv) (m : J2534Message) (buf : PASSTHRU_MSG) :
  FindClass_ok env = true -> GetMethodID_ok env = true ->
  NewByteArray_ok env = true ->
  sizeof_Data < dataSize m < 2 ^ 31 ->
  (exists n : PASSTHRU_MSG,
     convert_java_message_to_native (Some m) (Some buf) = Some n /\
     DataSize n = dataSize m) /\
  convert_native_message_to_java env
    (convert_java_message_to_native (Some m) (Some buf)) = ReadsPastData.
Proof.
  unfold sizeof_Data. intros Hc Hk Ha Hsize.
  assert (Hu : to_ulong (dataSize m) = dataSize m)
    by (apply to_ulong_small; unfold is_ulong, ULONG_BITS; lia).
  split; [eexists; split; [reflexivity|exact Hu]|].
  unfold convert_native_message_to_java; simpl. rewrite Hc, Hk, Ha; simpl.
  rewrite Hu. rewrite to_jint_small by (unfold is_jint; lia).
  destruct (Z.ltb_spec (dataSize m) 0); [lia|].
  destruct (Z.gtb_spec (dataSize m) 0); [|lia].
  unfold sizeof_Data. by destruct (Z.gtb_spec (dataSize m) 4128); [|lia].
Qed.

(** A 4130-byte message announced as such. *)
Lemma oversize_message_decodes_past_buffer_witness :
  convert_native_message_to_java (mkEnv true true true)
    (convert_java_message_to_native
       (Some (mkJavaMsg 6 0 0 0 4130 0 (Some (replicate 4130 x01))))
       (Some (mkNativeMsg 0 0 0 0 0 0 (replicate 4128 x00))))
  = ReadsPastData.
Proof.
  apply (oversize_message_decodes_past_buffer (mkEnv true true true)
           (mkJavaMsg 6 0 0 0 4130 0 (Some (replicate 4130 x01)))
           (mkNativeMsg 0 0 0 0 0 0 (replicate 4128 x00)));
    try reflexivity.
  unfold sizeof_Data; simpl; lia.
Defined.

End NativeMore.
